(** * Poster tiling: layout, interaction and export

    A shallow embedding of the poster maker's layout derivation
    ([CanvasWorkspace]), of its pointer gestures ([handleMouseDown],
    [handleMouseMove]), of the unit toggle of the application ([toggleUnit])
    and of the exporter ([generateTiledPDF]), with the properties the
    specification states about them.

    The source computes on JavaScript numbers.  The functions below are
    written once, over an interface [JsNumber] of the operations the source
    uses, and read at two instances:
    - [Q], exact rational arithmetic, in which the universally quantified
      properties are proved;
    - [float], the kernel's binary64 numbers, the arithmetic a JavaScript
      engine performs, on which the code can be run at a concrete input. *)

From Stdlib Require Import ZArith QArith Qround Qabs Qminmax Lqa Lia.
From Stdlib Require Import List String Ascii Bool DecimalString Floats.
Import ListNotations.

Set Implicit Arguments.
Set Warnings "-inexact-float".

(** ** Numbers *)

Declare Scope js_scope.
Delimit Scope js_scope with js.

(** The operations of JavaScript numbers that the source uses.  [lit q] is
    the numeric literal written [q] in the source, [ceil] is [Math.ceil]
    (read as the integer it denotes), [min] and [max] are [Math.min] and
    [Math.max], [truthy x] is the test [x || ...] performs, and [toFixed2 x]
    is [parseFloat(x.toFixed(2))]. *)
Class JsNumber (N : Type) : Type := {
  lit : Q -> N;
  of_Z : Z -> N;
  add : N -> N -> N;
  sub : N -> N -> N;
  mul : N -> N -> N;
  div : N -> N -> N;
  opp : N -> N;
  ltb : N -> N -> bool;
  leb : N -> N -> bool;
  min : N -> N -> N;
  max : N -> N -> N;
  ceil : N -> Z;
  truthy : N -> bool;
  toFixed2 : N -> N
}.

Infix "+" := add : js_scope.
Infix "-" := sub : js_scope.
Infix "*" := mul : js_scope.
Infix "/" := div : js_scope.
Notation "- x" := (opp x) : js_scope.
Infix "<?" := ltb : js_scope.
Infix "<=?" := leb : js_scope.

(** *** Exact arithmetic *)

(** [x.toFixed(2)] read back by [parseFloat]: the sign is split off, a
    magnitude of at least [10^21] is printed in full (and read back
    unchanged), any other is rounded to the nearest multiple of [1/100], the
    larger one on a tie. *)
Definition Q_toFixed2 (x : Q) : Q :=
  let a := Qabs x in
  if Qle_bool (inject_Z (10 ^ 21)) a then x
  else
    let n := Qfloor (a * 100 + (1 # 2))%Q in
    if Qle_bool 0 x then (inject_Z n / 100)%Q else (- (inject_Z n / 100))%Q.

(** Exact arithmetic is the idealisation of the source's numbers: no
    operation rounds.  What is proved in it holds of the code only as far
    as rounding does not decide the result; the page counts, ceilings of a
    rounded quotient, are therefore evaluated on binary64 as well (below).
    Division by zero (an infinity or NaN in JavaScript) is outside this
    instance: [Qdiv] gives [0] there, and the properties proved in it carry
    the hypothesis that makes the divisor positive. *)
#[export] Instance Q_JsNumber : JsNumber Q := {
  lit q := q;
  of_Z := inject_Z;
  add := Qplus;
  sub := Qminus;
  mul := Qmult;
  div := Qdiv;
  opp := Qopp;
  ltb x y := negb (Qle_bool y x);
  leb := Qle_bool;
  min := Qmin;
  max := Qmax;
  ceil := Qceiling;
  truthy x := negb (Qeq_bool x 0);
  toFixed2 := Q_toFixed2
}.

(** *** Binary64 arithmetic *)

Module F64.

(** An integer as a binary64 number (exact below [2^53]). *)
Definition of_Z (z : Z) : float :=
  if (z <? 0)%Z then PrimFloat.opp (PrimFloat.of_uint63 (Uint63.of_Z (- z)))
  else PrimFloat.of_uint63 (Uint63.of_Z z).

(** A decimal literal: the quotient of two integers that binary64 holds
    exactly, rounded once, is the number nearest to the literal. *)
Definition lit (q : Q) : float :=
  PrimFloat.div (of_Z (Qnum q)) (of_Z (Zpos (Qden q))).

(** The integer [Math.ceil] denotes on a finite number.  NaN and the
    infinities have none; they only arise from a configuration that holds
    them and are mapped to [0]. *)
Definition ceil (x : float) : Z :=
  match Prim2SF x with
  | S754_finite s m e =>
      let v := if s then Z.neg m else Z.pos m in
      if (0 <=? e)%Z then (v * 2 ^ e)%Z
      else (- ((- v) / 2 ^ (- e)))%Z
  | _ => 0%Z
  end.

Definition min (x y : float) : float :=
  if PrimFloat.is_nan x || PrimFloat.is_nan y then PrimFloat.nan
  else if PrimFloat.ltb y x then y else x.

Definition max (x y : float) : float :=
  if PrimFloat.is_nan x || PrimFloat.is_nan y then PrimFloat.nan
  else if PrimFloat.ltb x y then y else x.

Definition truthy (x : float) : bool :=
  negb (PrimFloat.is_nan x || PrimFloat.is_zero x).

(** [parseFloat(x.toFixed(2))]: the exact value of [x] is rounded to a
    multiple of [1/100] and that decimal is read back as the nearest
    binary64 number. *)
Definition toFixed2 (x : float) : float :=
  match Prim2SF x with
  | S754_finite s m e =>
      if PrimFloat.leb (lit (inject_Z (10 ^ 21))) (PrimFloat.abs x) then x
      else
        let a : Q := if (0 <=? e)%Z then inject_Z (Z.pos m * 2 ^ e)
                     else (Z.pos m # Z.to_pos (2 ^ (- e)))%Q in
        match Qfloor (a * 100 + (1 # 2))%Q with
        | Z.pos n =>
            SF2Prim (SFdiv prec emax (S754_finite s n 0)
                                     (S754_finite false 100 0))
        | _ => if s then PrimFloat.neg_zero else PrimFloat.zero
        end
  | _ => x
  end.

End F64.

#[export] Instance F64_JsNumber : JsNumber float := {
  lit := F64.lit;
  of_Z := F64.of_Z;
  add := PrimFloat.add;
  sub := PrimFloat.sub;
  mul := PrimFloat.mul;
  div := PrimFloat.div;
  opp := PrimFloat.opp;
  ltb := PrimFloat.ltb;
  leb := PrimFloat.leb;
  min := F64.min;
  max := F64.max;
  ceil := F64.ceil;
  truthy := F64.truthy;
  toFixed2 := F64.toFixed2
}.

(** ** Data model (types.ts) *)

Inductive Unit := MM | INCH.

Inductive PaperOrientation := PORTRAIT | LANDSCAPE.

Inductive SlicingMode := GRID | SIZE.

Inductive PaperCategory := ISO | ANSI | Photo | Custom.

Inductive CutLineStyle := solid | dashed | none.

Inductive LayerType := image | text.

Module PaperSize.
Record t (N : Type) : Type := {
  id : string;
  name : string;
  width : N;
  height : N;
  category : PaperCategory
}.
End PaperSize.

Module Style.
Record t (N : Type) : Type := {
  color : option string;
  fontSize : option N;
  fontFamily : option string;
  fontWeight : option string;
  backgroundColor : option string
}.
End Style.

Module Layer.
Record t (N : Type) : Type := {
  id : string;
  type : LayerType;
  content : string;
  x : N;
  y : N;
  width : N;
  height : N;
  rotation : N;
  opacity : N;
  style : option (Style.t N)
}.
End Layer.

Module PosterConfig.
Record t (N : Type) : Type := {
  mode : SlicingMode;
  unit : Unit;
  targetWidth : N;
  targetHeight : N;
  gridRows : N;
  gridCols : N;
  paperId : string;
  orientation : PaperOrientation;
  margin : N;
  overlap : N;
  showCutLines : bool;
  cutLineStyle : CutLineStyle;
  showPageNumbers : bool
}.
End PosterConfig.

Definition Unit_eqb (a b : Unit) : bool :=
  match a, b with
  | MM, MM | INCH, INCH => true
  | _, _ => false
  end.

(** [o?.f] *)
Definition optChain {A B} (f : A -> option B) (o : option A) : option B :=
  match o with
  | Some a => f a
  | None => None
  end.

(** [a || b] on an optional string: the empty string is falsy. *)
Definition orString (a : option string) (b : string) : string :=
  match a with
  | Some EmptyString | None => b
  | Some s => s
  end.

(** [a || b] on an optional number. *)
Definition orNumber {N} `{JsNumber N} (a : option N) (b : N) : N :=
  match a with
  | Some v => if truthy v then v else b
  | None => b
  end.

(** ** The paper catalog (constants.ts) *)

Section Catalog.
Context {N : Type} `{JsNumber N}.

Definition paper (i n : string) (w h : Q) (c : PaperCategory) : PaperSize.t N :=
  {| PaperSize.id := i; PaperSize.name := n;
     PaperSize.width := lit w; PaperSize.height := lit h;
     PaperSize.category := c |}.

(** The inch sign of the photo sizes' display names. *)
Definition inch_sign : string := String "034"%char EmptyString.

Definition PAPER_SIZES : list (PaperSize.t N) :=
  [ paper "a3" "A3" 297 420 ISO;
    paper "a3plus" "A3+ (Super B)" 329 483 ISO;
    paper "a4" "A4" 210 297 ISO;
    paper "a5" "A5" 148 210 ISO;
    paper "a6" "A6" 105 148 ISO;
    paper "letter" "Letter" (2159 # 10) (2794 # 10) ANSI;
    paper "legal" "Legal" (2159 # 10) (3556 # 10) ANSI;
    paper "folio" "Folio (Long Bond)" (2159 # 10) (3302 # 10) ANSI;
    paper "tabloid" "Tabloid" (2794 # 10) (4318 # 10) ANSI;
    paper "4x6" ("4" ++ inch_sign ++ " x 6" ++ inch_sign) (1016 # 10) (1524 # 10) Photo;
    paper "5x7" ("5" ++ inch_sign ++ " x 7" ++ inch_sign) 127 (1778 # 10) Photo;
    paper "8x10" ("8" ++ inch_sign ++ " x 10" ++ inch_sign) (2032 # 10) 254 Photo ].

Definition DEFAULT_PAPER_ID : string := "letter".

Definition findPaper (i : string) : option (PaperSize.t N) :=
  find (fun p => String.eqb (PaperSize.id p) i) PAPER_SIZES.

Definition DEFAULT_PAPER : PaperSize.t N :=
  match findPaper DEFAULT_PAPER_ID with
  | Some p => p
  | None => paper "a3" "A3" 297 420 ISO
  end.

(** [PAPER_SIZES.find(p => p.id === config.paperId) || DEFAULT_PAPER] *)
Definition selectedPaper (config : PosterConfig.t N) : PaperSize.t N :=
  match findPaper (PosterConfig.paperId config) with
  | Some p => p
  | None => DEFAULT_PAPER
  end.

End Catalog.

(** ** The application's configuration state (App) *)

Section App.
Context {N : Type} `{JsNumber N}.
Local Open Scope js_scope.

(** The state [toggleUnit] lives in: the configuration and the layers. *)
Record AppState : Type := {
  config : PosterConfig.t N;
  layers : list (Layer.t N)
}.

(** [toggleUnit]: the new unit and the conversion factor come from the
    current configuration, and [setConfig] rebuilds it from [prev]. *)
Definition toggleUnitConfig (prev : PosterConfig.t N) : PosterConfig.t N :=
  let newUnit := if Unit_eqb (PosterConfig.unit prev) MM then INCH else MM in
  let factor := if Unit_eqb newUnit INCH then lit 1 / lit (254 # 10)
                else lit (254 # 10) in
  {| PosterConfig.mode := PosterConfig.mode prev;
     PosterConfig.unit := newUnit;
     PosterConfig.targetWidth := toFixed2 (PosterConfig.targetWidth prev * factor);
     PosterConfig.targetHeight := toFixed2 (PosterConfig.targetHeight prev * factor);
     PosterConfig.gridRows := PosterConfig.gridRows prev;
     PosterConfig.gridCols := PosterConfig.gridCols prev;
     PosterConfig.paperId := PosterConfig.paperId prev;
     PosterConfig.orientation := PosterConfig.orientation prev;
     PosterConfig.margin := toFixed2 (PosterConfig.margin prev * factor);
     PosterConfig.overlap := toFixed2 (PosterConfig.overlap prev * factor);
     PosterConfig.showCutLines := PosterConfig.showCutLines prev;
     PosterConfig.cutLineStyle := PosterConfig.cutLineStyle prev;
     PosterConfig.showPageNumbers := PosterConfig.showPageNumbers prev |}.

Definition toggleUnit (st : AppState) : AppState :=
  {| config := toggleUnitConfig (config st); layers := layers st |}.

(** A partial layer, as the canvas passes it to [onLayerUpdate]. *)
Record LayerUpdate : Type := {
  upd_x : option N;
  upd_y : option N;
  upd_width : option N;
  upd_height : option N
}.

Definition orElse (o : option N) (d : N) : N :=
  match o with Some v => v | None => d end.

(** [{ ...l, ...updates }] *)
Definition mergeLayer (l : Layer.t N) (u : LayerUpdate) : Layer.t N :=
  {| Layer.id := Layer.id l;
     Layer.type := Layer.type l;
     Layer.content := Layer.content l;
     Layer.x := orElse (upd_x u) (Layer.x l);
     Layer.y := orElse (upd_y u) (Layer.y l);
     Layer.width := orElse (upd_width u) (Layer.width l);
     Layer.height := orElse (upd_height u) (Layer.height l);
     Layer.rotation := Layer.rotation l;
     Layer.opacity := Layer.opacity l;
     Layer.style := Layer.style l |}.

(** [updateLayer]: [prev.map(l => l.id === id ? { ...l, ...updates } : l)] *)
Definition updateLayer (i : string) (u : LayerUpdate)
    (prev : list (Layer.t N)) : list (Layer.t N) :=
  map (fun l => if String.eqb (Layer.id l) i then mergeLayer l u else l) prev.

End App.

(** ** The canvas workspace (CanvasWorkspace) *)

Inductive Handle := nw | ne | sw | se.

Inductive InteractionMode := mode_none | moving | resizing.

Section Workspace.
Context {N : Type} `{JsNumber N}.
Local Open Scope js_scope.

(** The layout the component derives on every render. *)
Record Layout : Type := {
  printW : N;
  printH : N;
  posterDisplayWidth : N;
  posterDisplayHeight : N;
  cols : N;
  rows : N;
  visualW : N;
  visualH : N
}.

Definition workspaceLayout (config : PosterConfig.t N)
    (paperSize : PaperSize.t N) : Layout :=
  let isInch := Unit_eqb (PosterConfig.unit config) INCH in
  let paperWidth := if isInch then PaperSize.width paperSize / lit (254 # 10)
                    else PaperSize.width paperSize in
  let paperHeight := if isInch then PaperSize.height paperSize / lit (254 # 10)
                     else PaperSize.height paperSize in
  let isPortrait :=
    match PosterConfig.orientation config with PORTRAIT => true | LANDSCAPE => false end in
  let pWidth := if isPortrait then paperWidth else paperHeight in
  let pHeight := if isPortrait then paperHeight else paperWidth in
  let printW := pWidth - (PosterConfig.margin config * lit 2) in
  let printH := pHeight - (PosterConfig.margin config * lit 2) in
  let displayScale := if isInch then lit (254 # 10) else lit 1 in
  match PosterConfig.mode config with
  | GRID =>
      let posterDisplayWidth := PosterConfig.gridCols config * printW in
      let posterDisplayHeight := PosterConfig.gridRows config * printH in
      {| printW := printW; printH := printH;
         posterDisplayWidth := posterDisplayWidth;
         posterDisplayHeight := posterDisplayHeight;
         cols := PosterConfig.gridCols config;
         rows := PosterConfig.gridRows config;
         visualW := posterDisplayWidth * displayScale;
         visualH := posterDisplayHeight * displayScale |}
  | SIZE =>
      let posterDisplayWidth := PosterConfig.targetWidth config in
      let posterDisplayHeight := PosterConfig.targetHeight config in
      {| printW := printW; printH := printH;
         posterDisplayWidth := posterDisplayWidth;
         posterDisplayHeight := posterDisplayHeight;
         cols := of_Z (ceil (posterDisplayWidth / printW));
         rows := of_Z (ceil (posterDisplayHeight / printH));
         visualW := posterDisplayWidth * displayScale;
         visualH := posterDisplayHeight * displayScale |}
  end.

(** The interaction state of a gesture. *)
Record Interaction : Type := {
  mode : InteractionMode;
  activeHandle : option Handle;
  startMouse : N * N;
  startLayer : option (Layer.t N)
}.

Definition noInteraction : Interaction :=
  {| mode := mode_none; activeHandle := None;
     startMouse := (lit 0, lit 0); startLayer := None |}.

(** A pointer event: [clientX], [clientY]. *)
Definition MouseEvent : Type := (N * N)%type.

(** [handleMouseDown]: the gesture starts on the layer of that id, if
    there is one; the layer is selected and a copy of it is kept. *)
Definition handleMouseDown (layers : list (Layer.t N)) (e : MouseEvent)
    (layerId : string) (handle : option Handle)
    (cur : option string * Interaction) : option string * Interaction :=
  match find (fun l => String.eqb (Layer.id l) layerId) layers with
  | None => cur
  | Some layer =>
      (Some layerId,
       {| mode := match handle with Some _ => resizing | None => moving end;
          activeHandle := handle;
          startMouse := e;
          startLayer := Some layer |})
  end.

Definition MIN_SIZE : N := lit (1 # 100).

(** [!selectedLayerId]: no selection, or the empty string. *)
Definition selection (selectedLayerId : option string) : option string :=
  match selectedLayerId with
  | Some EmptyString | None => None
  | Some i => Some i
  end.

(** The resize of a corner handle: the new [(x, y, width, height)] from the
    layer at gesture start and the pointer delta, as fractions. *)
Definition resizeBox (h : Handle) (startLayer : Layer.t N)
    (deltaXPct deltaYPct : N) : N * N * N * N :=
  let x0 := Layer.x startLayer in
  let y0 := Layer.y startLayer in
  let w0 := Layer.width startLayer in
  let h0 := Layer.height startLayer in
  match h with
  | se =>
      let newW := max MIN_SIZE (w0 + deltaXPct) in
      let newH := max MIN_SIZE (h0 + deltaYPct) in
      (x0, y0, newW, newH)
  | sw =>
      let proposedW_sw := w0 - deltaXPct in
      let '(newW, newX) :=
        if proposedW_sw <? MIN_SIZE then (MIN_SIZE, (x0 + w0) - MIN_SIZE)
        else (proposedW_sw, x0 + deltaXPct) in
      let newH := max MIN_SIZE (h0 + deltaYPct) in
      (newX, y0, newW, newH)
  | ne =>
      let newW := max MIN_SIZE (w0 + deltaXPct) in
      let proposedH_ne := h0 - deltaYPct in
      let '(newH, newY) :=
        if proposedH_ne <? MIN_SIZE then (MIN_SIZE, (y0 + h0) - MIN_SIZE)
        else (proposedH_ne, y0 + deltaYPct) in
      (x0, newY, newW, newH)
  | nw =>
      let proposedW_nw := w0 - deltaXPct in
      let proposedH_nw := h0 - deltaYPct in
      let '(newW, newX) :=
        if proposedW_nw <? MIN_SIZE then (MIN_SIZE, (x0 + w0) - MIN_SIZE)
        else (proposedW_nw, x0 + deltaXPct) in
      let '(newH, newY) :=
        if proposedH_nw <? MIN_SIZE then (MIN_SIZE, (y0 + h0) - MIN_SIZE)
        else (proposedH_nw, y0 + deltaYPct) in
      (newX, newY, newW, newH)
  end.

(** [handleMouseMove]: the call of [onLayerUpdate] it makes, if any. *)
Definition handleMouseMove (zoom visualW visualH : N)
    (selectedLayerId : option string) (interaction : Interaction)
    (e : MouseEvent) : option (string * LayerUpdate) :=
  match mode interaction, startLayer interaction, selection selectedLayerId with
  | mode_none, _, _ | _, None, _ | _, _, None => None
  | m, Some startLayer, Some sel =>
      let deltaX := (fst e - fst (startMouse interaction)) / zoom in
      let deltaY := (snd e - snd (startMouse interaction)) / zoom in
      let deltaXPct := deltaX / visualW in
      let deltaYPct := deltaY / visualH in
      match m, activeHandle interaction with
      | moving, _ =>
          Some (sel, {| upd_x := Some (Layer.x startLayer + deltaXPct);
                        upd_y := Some (Layer.y startLayer + deltaYPct);
                        upd_width := None; upd_height := None |})
      | resizing, Some h =>
          let '(newX, newY, newW, newH) :=
            resizeBox h startLayer deltaXPct deltaYPct in
          Some (sel, {| upd_x := Some newX; upd_y := Some newY;
                        upd_width := Some newW; upd_height := Some newH |})
      | _, _ => None
      end
  end.

(** [handleMouseUp] *)
Definition handleMouseUp : Interaction := noInteraction.

(** The editing session the handlers act on: the layers and the selection
    (owned by the application) and the interaction state. *)
Record Editor : Type := {
  ed_layers : list (Layer.t N);
  ed_selected : option string;
  ed_interaction : Interaction
}.

(** A pointer-down on a layer, or on one of its handles. *)
Definition pointerDown (e : MouseEvent) (layerId : string)
    (handle : option Handle) (st : Editor) : Editor :=
  let '(sel, i) := handleMouseDown (ed_layers st) e layerId handle
                     (ed_selected st, ed_interaction st) in
  {| ed_layers := ed_layers st; ed_selected := sel; ed_interaction := i |}.

(** A pointer-move: [handleMouseMove], its update applied by [updateLayer]. *)
Definition pointerMove (zoom visualW visualH : N) (st : Editor)
    (e : MouseEvent) : Editor :=
  match handleMouseMove zoom visualW visualH (ed_selected st)
          (ed_interaction st) e with
  | Some (i, u) =>
      {| ed_layers := updateLayer i u (ed_layers st);
         ed_selected := ed_selected st;
         ed_interaction := ed_interaction st |}
  | None => st
  end.

(** A pointer-up (or the pointer leaving the workspace). *)
Definition pointerUp (st : Editor) : Editor :=
  {| ed_layers := ed_layers st; ed_selected := ed_selected st;
     ed_interaction := handleMouseUp |}.

End Workspace.

(** ** The exporter (generateTiledPDF) *)

(** The calls the exporter makes, in order, on the virtual canvas and its 2D
    context, on the tile canvases, and on the PDF document. *)
Inductive Event (N : Type) : Type :=
| CreateCanvas (width height : Z)
| CanvasFillStyle (color : string)
| CanvasFillRect (x y : N) (w h : Z)
| CtxSave
| CtxTranslate (x y : N)
| CtxRotateDegrees (rotation : N)
| CtxGlobalAlpha (opacity : N)
| CtxDrawImage (src : string) (x y w h : N)
| CtxFont (weight : string) (px : N) (family : string)
| CtxFillStyle (color : string)
| CtxTextBaseline (baseline : string)
| CtxFillText (line : string) (x y : N)
| CtxRestore
| NewDocument (orientation : string) (unit : Unit) (w h : N)
| DeletePage (n : nat)
| AddPage (w h : N) (orientation : string)
| CreateTileCanvas (w h : N)
| TileDrawImage (sx sy sw sh dx dy dw dh : N)
| AddImage (x y w h : N)
| SetLineWidth (w : N)
| SetDrawColor (r g b : Z)
| SetLineDashPattern (pattern : list N) (phase : N)
| DocRect (x y w h : N)
| DocLine (x1 y1 x2 y2 : N)
| SetFontSize (size : Z)
| SetTextColor (gray : Z)
| DocText (s : string) (x y : N)
| DocSave (filename : string).

Arguments CtxSave {N}.
Arguments CtxRestore {N}.
Arguments CreateCanvas {N}.
Arguments CanvasFillStyle {N}.
Arguments CtxFillStyle {N}.
Arguments CtxTextBaseline {N}.
Arguments DeletePage {N}.
Arguments SetDrawColor {N}.
Arguments SetFontSize {N}.
Arguments SetTextColor {N}.
Arguments DocSave {N}.

(** How the export ends. *)
Inductive Outcome : Type :=
| Saved
| Thrown (message : string).

(** What the browser grants: the 2D context of the virtual canvas, and that
    of the tile canvas of each page (row, column). *)
Record Browser : Type := {
  canvasContext : bool;
  tileContext : nat -> nat -> bool
}.

Definition marginError : string :=
  "Margins are too large for the selected paper size.".

Definition contextError : string := "Could not create canvas context".

Definition outputFile : string := "docuslice-poster.pdf".

(** [content.split('\n')] *)
Fixpoint splitLines (s : string) : list string :=
  match s with
  | EmptyString => [EmptyString]
  | String c rest =>
      if Ascii.eqb c "010"%char then EmptyString :: splitLines rest
      else match splitLines rest with
           | l :: ls => String c l :: ls
           | [] => [String c EmptyString]
           end
  end.

(** A loop counter in a template literal. *)
Definition showNat (n : nat) : string := NilEmpty.string_of_uint (Nat.to_uint n).

(** [`Page ${r + 1}-${c + 1} (Row ${r + 1}, Col ${c + 1})`] *)
Definition pageLabel (r c : nat) : string :=
  "Page " ++ showNat (r + 1) ++ "-" ++ showNat (c + 1)
  ++ " (Row " ++ showNat (r + 1) ++ ", Col " ++ showNat (c + 1) ++ ")".

(** [xs.forEach((x, i) => ...)], the calls of each element in order. *)
Fixpoint forEachIndexed {A B} (f : A -> nat -> list B) (i : nat) (xs : list A)
  : list B :=
  match xs with
  | [] => []
  | x :: xs' => f x i ++ forEachIndexed f (S i) xs'
  end.

Section Exporter.
Context {N : Type} `{JsNumber N}.
Local Open Scope js_scope.

Definition ofNat (n : nat) : N := of_Z (Z.of_nat n).

(** The geometry the exporter derives before it draws. *)
Record Geometry : Type := {
  isInch : bool;
  isPortrait : bool;
  pWidth : N;
  pHeight : N;
  g_printW : N;
  g_printH : N;
  posterWidth : N;
  posterHeight : N;
  g_cols : Z;
  g_rows : Z;
  scale : N
}.

Definition geometry (config : PosterConfig.t N) (paperSize : PaperSize.t N)
  : Geometry :=
  let isInch := Unit_eqb (PosterConfig.unit config) INCH in
  let paperWidth := if isInch then PaperSize.width paperSize / lit (254 # 10)
                    else PaperSize.width paperSize in
  let paperHeight := if isInch then PaperSize.height paperSize / lit (254 # 10)
                     else PaperSize.height paperSize in
  let isPortrait :=
    match PosterConfig.orientation config with PORTRAIT => true | LANDSCAPE => false end in
  let pWidth := if isPortrait then paperWidth else paperHeight in
  let pHeight := if isPortrait then paperHeight else paperWidth in
  let printW := pWidth - (PosterConfig.margin config * lit 2) in
  let printH := pHeight - (PosterConfig.margin config * lit 2) in
  let posterWidth :=
    match PosterConfig.mode config with
    | GRID => PosterConfig.gridCols config * printW
    | SIZE => PosterConfig.targetWidth config
    end in
  let posterHeight :=
    match PosterConfig.mode config with
    | GRID => PosterConfig.gridRows config * printH
    | SIZE => PosterConfig.targetHeight config
    end in
  {| isInch := isInch; isPortrait := isPortrait;
     pWidth := pWidth; pHeight := pHeight;
     g_printW := printW; g_printH := printH;
     posterWidth := posterWidth; posterHeight := posterHeight;
     g_cols := ceil (posterWidth / printW);
     g_rows := ceil (posterHeight / printH);
     scale := if isInch then lit 120 else lit 5 |}.

(** The body of the loop over the layers: one layer drawn on the canvas of
    the given pixel size.  [CtxRotateDegrees r] is the call
    [ctx.rotate((r * Math.PI) / 180)]; waiting for an image ends when it
    has loaded or failed to. *)
Definition drawLayer (canvasWidth canvasHeight : Z) (layer : Layer.t N)
  : list (Event N) :=
  let lx := Layer.x layer * of_Z canvasWidth in
  let ly := Layer.y layer * of_Z canvasHeight in
  let lw := Layer.width layer * of_Z canvasWidth in
  let lh := Layer.height layer * of_Z canvasHeight in
  let cx := lx + lw / lit 2 in
  let cy := ly + lh / lit 2 in
  [ CtxSave; CtxTranslate cx cy; CtxRotateDegrees (Layer.rotation layer);
    CtxTranslate (- cx) (- cy); CtxGlobalAlpha (Layer.opacity layer) ]
  ++ match Layer.type layer with
     | image => [ CtxDrawImage (Layer.content layer) lx ly lw lh ]
     | text =>
         let st := Layer.style layer in
         let fontSize :=
           (of_Z canvasHeight * lit (5 # 100))
           * orNumber (optChain (@Style.fontSize N) st) (lit 1) in
         [ CtxFont (orString (optChain (@Style.fontWeight N) st) "normal")
                   fontSize
                   (orString (optChain (@Style.fontFamily N) st) "sans-serif");
           CtxFillStyle (orString (optChain (@Style.color N) st) "#000000");
           CtxTextBaseline "top" ]
         ++ forEachIndexed
              (fun line i =>
                 [ CtxFillText line lx (ly + (ofNat i * fontSize * lit (12 # 10))) ])
              0 (splitLines (Layer.content layer))
     end
  ++ [ CtxRestore ].

(** The extracted width and height of the tile of a page. *)
Definition tileWidth (g : Geometry) (c : nat) : N :=
  min (g_printW g) (posterWidth g - ofNat c * g_printW g).

Definition tileHeight (g : Geometry) (r : nat) : N :=
  min (g_printH g) (posterHeight g - ofNat r * g_printH g).

(** The body of the loops over the rows and the columns: one page. *)
Definition pageEvents (env : Browser) (config : PosterConfig.t N)
    (g : Geometry) (r c : nat) : list (Event N) :=
  let orient := (if isPortrait g then "p" else "l")%string in
  let srcX := ofNat c * g_printW g in
  let srcY := ofNat r * g_printH g in
  let srcW := min (g_printW g) (posterWidth g - srcX) in
  let srcH := min (g_printH g) (posterHeight g - srcY) in
  let destX := PosterConfig.margin config in
  let destY := PosterConfig.margin config in
  let sx := srcX * scale g in
  let sy := srcY * scale g in
  let sw := srcW * scale g in
  let sh := srcH * scale g in
  [ AddPage (pWidth g) (pHeight g) orient ]
  ++ (if (lit 0 <? sw) && (lit 0 <? sh) then
        CreateTileCanvas sw sh
        :: (if tileContext env r c then
              [ TileDrawImage sx sy sw sh (lit 0) (lit 0) sw sh;
                AddImage destX destY srcW srcH ]
            else [])
      else [])
  ++ (if PosterConfig.showCutLines config
         && match PosterConfig.cutLineStyle config with none => false | _ => true end
      then
        let markLen := if isInch g then lit (2 # 10) else lit 5 in
        let markOffset := if isInch g then lit (8 # 100) else lit 2 in
        [ SetLineWidth (if isInch g then lit (1 # 100) else lit (3 # 10));
          SetDrawColor 150 150 150;
          match PosterConfig.cutLineStyle config with
          | dashed =>
              SetLineDashPattern
                [ if isInch g then lit (1 # 10) else lit 2;
                  if isInch g then lit (1 # 10) else lit 2 ] (lit 0)
          | _ => SetLineDashPattern [] (lit 0)
          end;
          DocRect destX destY srcW srcH;
          SetLineDashPattern [] (lit 0);
          SetDrawColor 0 0 0;
          DocLine (destX - markOffset) destY (destX + markLen) destY;
          DocLine destX (destY - markOffset) destX (destY + markLen);
          DocLine (destX + srcW - markLen) (destY + srcH)
                  (destX + srcW + markOffset) (destY + srcH);
          DocLine (destX + srcW) (destY + srcH - markLen)
                  (destX + srcW) (destY + srcH + markOffset) ]
      else [])
  ++ (if PosterConfig.showPageNumbers config then
        [ SetFontSize 10; SetTextColor 150;
          DocText (pageLabel r c)
                  (if isInch g then lit (2 # 10) else lit 5)
                  (pHeight g - (if isInch g then lit (2 # 10) else lit 5)) ]
      else []).

(** The pages of the document, in the order of the two nested loops. *)
Definition pageCells (rows cols : Z) : list (nat * nat) :=
  flat_map (fun r => map (fun c => (r, c)) (seq 0 (Z.to_nat cols)))
           (seq 0 (Z.to_nat rows)).

(** [generateTiledPDF]: the calls made, and how the export ended. *)
Definition generateTiledPDF (env : Browser) (config : PosterConfig.t N)
    (layers : list (Layer.t N)) (paperSize : PaperSize.t N)
  : list (Event N) * Outcome :=
  let g := geometry config paperSize in
  if (g_printW g <=? lit 0) || (g_printH g <=? lit 0) then
    ([], Thrown marginError)
  else
    let canvasWidth := ceil (posterWidth g * scale g) in
    let canvasHeight := ceil (posterHeight g * scale g) in
    if negb (canvasContext env) then
      ([ CreateCanvas canvasWidth canvasHeight ], Thrown contextError)
    else
      let orient := (if isPortrait g then "p" else "l")%string in
      ([ CreateCanvas canvasWidth canvasHeight;
         CanvasFillStyle "#ffffff";
         CanvasFillRect (lit 0) (lit 0) canvasWidth canvasHeight ]
       ++ flat_map (drawLayer canvasWidth canvasHeight) layers
       ++ [ NewDocument orient (PosterConfig.unit config) (pWidth g) (pHeight g);
            DeletePage 1 ]
       ++ flat_map (fun rc => pageEvents env config g (fst rc) (snd rc))
                   (pageCells (g_rows g) (g_cols g))
       ++ [ DocSave outputFile ],
       Saved).

End Exporter.

(** ** Sample inputs *)

Section Samples.
Context {N : Type} `{JsNumber N}.

(** The configuration the application starts with. *)
Definition initialConfig : PosterConfig.t N :=
  {| PosterConfig.mode := GRID;
     PosterConfig.unit := INCH;
     PosterConfig.targetWidth := lit 36;
     PosterConfig.targetHeight := lit 48;
     PosterConfig.gridRows := lit 3;
     PosterConfig.gridCols := lit 3;
     PosterConfig.paperId := DEFAULT_PAPER_ID;
     PosterConfig.orientation := PORTRAIT;
     PosterConfig.margin := lit (5 # 10);
     PosterConfig.overlap := lit (25 # 100);
     PosterConfig.showCutLines := true;
     PosterConfig.cutLineStyle := dashed;
     PosterConfig.showPageNumbers := true |}.

Definition withMargin (m : N) (c : PosterConfig.t N) : PosterConfig.t N :=
  {| PosterConfig.mode := PosterConfig.mode c;
     PosterConfig.unit := PosterConfig.unit c;
     PosterConfig.targetWidth := PosterConfig.targetWidth c;
     PosterConfig.targetHeight := PosterConfig.targetHeight c;
     PosterConfig.gridRows := PosterConfig.gridRows c;
     PosterConfig.gridCols := PosterConfig.gridCols c;
     PosterConfig.paperId := PosterConfig.paperId c;
     PosterConfig.orientation := PosterConfig.orientation c;
     PosterConfig.margin := m;
     PosterConfig.overlap := PosterConfig.overlap c;
     PosterConfig.showCutLines := PosterConfig.showCutLines c;
     PosterConfig.cutLineStyle := PosterConfig.cutLineStyle c;
     PosterConfig.showPageNumbers := PosterConfig.showPageNumbers c |}.

Definition withMode (m : SlicingMode) (c : PosterConfig.t N) : PosterConfig.t N :=
  {| PosterConfig.mode := m;
     PosterConfig.unit := PosterConfig.unit c;
     PosterConfig.targetWidth := PosterConfig.targetWidth c;
     PosterConfig.targetHeight := PosterConfig.targetHeight c;
     PosterConfig.gridRows := PosterConfig.gridRows c;
     PosterConfig.gridCols := PosterConfig.gridCols c;
     PosterConfig.paperId := PosterConfig.paperId c;
     PosterConfig.orientation := PosterConfig.orientation c;
     PosterConfig.margin := PosterConfig.margin c;
     PosterConfig.overlap := PosterConfig.overlap c;
     PosterConfig.showCutLines := PosterConfig.showCutLines c;
     PosterConfig.cutLineStyle := PosterConfig.cutLineStyle c;
     PosterConfig.showPageNumbers := PosterConfig.showPageNumbers c |}.

(** A configuration in millimeters with the given target width. *)
Definition mmConfig (w : N) : PosterConfig.t N :=
  {| PosterConfig.mode := SIZE;
     PosterConfig.unit := MM;
     PosterConfig.targetWidth := w;
     PosterConfig.targetHeight := lit 1200;
     PosterConfig.gridRows := lit 3;
     PosterConfig.gridCols := lit 3;
     PosterConfig.paperId := "a4";
     PosterConfig.orientation := PORTRAIT;
     PosterConfig.margin := lit 10;
     PosterConfig.overlap := lit 5;
     PosterConfig.showCutLines := true;
     PosterConfig.cutLineStyle := solid;
     PosterConfig.showPageNumbers := true |}.

(** A browser that grants every context. *)
Definition browser : Browser :=
  {| canvasContext := true; tileContext := fun _ _ => true |}.

(** The layer [handleAddLayer] creates for a text, with the given size
    field. *)
Definition textLayer (i content : string) (size : option N) : Layer.t N :=
  {| Layer.id := i; Layer.type := text; Layer.content := content;
     Layer.x := lit (25 # 100); Layer.y := lit (25 # 100);
     Layer.width := lit (5 # 10); Layer.height := lit (2 # 10);
     Layer.rotation := lit 0; Layer.opacity := lit 1;
     Layer.style :=
       Some {| Style.color := Some "#000000"%string; Style.fontSize := size;
               Style.fontFamily := Some "Inter"%string;
               Style.fontWeight := Some "bold"%string;
               Style.backgroundColor := None |} |}.

(** The layer [handleAddLayer] creates for an image. *)
Definition imageLayer (i content : string) : Layer.t N :=
  {| Layer.id := i; Layer.type := image; Layer.content := content;
     Layer.x := lit (25 # 100); Layer.y := lit (25 # 100);
     Layer.width := lit (5 # 10); Layer.height := lit (5 # 10);
     Layer.rotation := lit 0; Layer.opacity := lit 1;
     Layer.style := None |}.

End Samples.

(** ** Vocabulary of the properties *)

(** The millimeter-to-inch-to-millimeter round trip of one physical field:
    two toggles of the unit, starting in millimeters. *)
Definition roundTrip (x : Q) : Q :=
  PosterConfig.targetWidth (toggleUnitConfig (toggleUnitConfig (mmConfig x))).

(** The width and the height a corner handle proposes, before the floor. *)
Definition proposedWidth (h : Handle) (startLayer : Layer.t Q) (dx : Q) : Q :=
  match h with
  | se | ne => Layer.width startLayer + dx
  | sw | nw => Layer.width startLayer - dx
  end.

Definition proposedHeight (h : Handle) (startLayer : Layer.t Q) (dy : Q) : Q :=
  match h with
  | se | sw => Layer.height startLayer + dy
  | ne | nw => Layer.height startLayer - dy
  end.

(** The corner of the box [(x, y, w, h)] opposite to a handle, in fractions
    of the poster ([y] grows downwards). *)
Definition fixedCorner (h : Handle) (box : Q * Q * Q * Q) : Q * Q :=
  let '(x, y, w, h') := box in
  match h with
  | se => (x, y)
  | sw => (x + w, y)
  | ne => (x, y + h')
  | nw => (x + w, y + h')
  end.

Definition layerBox (l : Layer.t Q) : Q * Q * Q * Q :=
  (Layer.x l, Layer.y l, Layer.width l, Layer.height l).

(** An editing session in the middle of a gesture on a layer. *)
Definition gestureOn {N} `{JsNumber N} (m : InteractionMode)
    (h : option Handle) (start : N * N) (l : Layer.t N) : Editor :=
  {| ed_layers := [l];
     ed_selected := Some (Layer.id l);
     ed_interaction := {| mode := m; activeHandle := h;
                          startMouse := start; startLayer := Some l |} |}.

(** A move of the image layer, started at pointer (100, 100). *)
Definition sampleMove : Editor :=
  gestureOn moving None (100, 100)%Q (imageLayer (N := Q) "layer-1" "data:image/png").

(** A resize of the same layer by its bottom-left handle. *)
Definition sampleResize : Editor :=
  gestureOn resizing (Some sw) (100, 100)%Q
    (imageLayer (N := Q) "layer-1" "data:image/png").

(** Calls on the virtual canvas and its context (as opposed to calls on the
    tile canvases and on the document). *)
Definition onCanvas {N} (e : Event N) : bool :=
  match e with
  | CreateCanvas _ _ | CanvasFillStyle _ | CanvasFillRect _ _ _ _
  | CtxSave | CtxTranslate _ _ | CtxRotateDegrees _ | CtxGlobalAlpha _
  | CtxDrawImage _ _ _ _ _ | CtxFont _ _ _ | CtxFillStyle _
  | CtxTextBaseline _ | CtxFillText _ _ _ | CtxRestore => true
  | _ => false
  end.

Definition isAddPage {N} (e : Event N) : bool :=
  match e with AddPage _ _ _ => true | _ => false end.

Definition isPageOrLabel {N} (e : Event N) : bool :=
  match e with AddPage _ _ _ | DocText _ _ _ => true | _ => false end.

Definition isDocSave {N} (e : Event N) : bool :=
  match e with DocSave _ => true | _ => false end.

(** The new page of a cell, followed by its label when page numbers are on. *)
Definition pageAndLabel {N} `{JsNumber N} (config : PosterConfig.t N)
    (g : Geometry) (rc : nat * nat) : list (Event N) :=
  AddPage (pWidth g) (pHeight g) (if isPortrait g then "p" else "l")%string
  :: (if PosterConfig.showPageNumbers config then
        [ DocText (pageLabel (fst rc) (snd rc))
                  (if isInch g then lit (2 # 10) else lit 5)
                  (pHeight g - (if isInch g then lit (2 # 10) else lit 5))%js ]
      else []).

(** A6 paper with a 60 mm margin: no printable width is left. *)
Definition wideMarginConfig : PosterConfig.t Q :=
  {| PosterConfig.mode := GRID;
     PosterConfig.unit := MM;
     PosterConfig.targetWidth := 500;
     PosterConfig.targetHeight := 700;
     PosterConfig.gridRows := 2;
     PosterConfig.gridCols := 2;
     PosterConfig.paperId := "a6";
     PosterConfig.orientation := PORTRAIT;
     PosterConfig.margin := 60;
     PosterConfig.overlap := 0;
     PosterConfig.showCutLines := true;
     PosterConfig.cutLineStyle := solid;
     PosterConfig.showPageNumbers := true |}.

(** The default configuration switched to SIZE mode: a 36 in x 48 in poster
    on Letter paper with half-inch margins. *)
Definition sizeConfig : PosterConfig.t Q := withMode SIZE initialConfig.

(** The configuration the application starts with (GRID mode, 3 x 3 sheets
    of Letter paper, inches), its margin set to 0.3 in, in binary64. *)
Definition narrowMarginConfig : PosterConfig.t float :=
  withMargin (lit (3 # 10)) initialConfig.

Definition narrowMarginPaper : PaperSize.t float :=
  selectedPaper narrowMarginConfig.

Definition narrowMarginGeometry : Geometry :=
  geometry narrowMarginConfig narrowMarginPaper.

(** The configuration the application starts with after one unit toggle
    (millimetres: margin 12.7, overlap 6.35, height 1219.2), with A4 paper,
    SIZE mode and a target width of 1292.2 mm, seven times the printable
    width of 184.6 mm. *)
Definition sevenWidthsConfig {N} `{JsNumber N} : PosterConfig.t N :=
  {| PosterConfig.mode := SIZE;
     PosterConfig.unit := MM;
     PosterConfig.targetWidth := lit (12922 # 10);
     PosterConfig.targetHeight := lit (12192 # 10);
     PosterConfig.gridRows := lit 3;
     PosterConfig.gridCols := lit 3;
     PosterConfig.paperId := "a4";
     PosterConfig.orientation := PORTRAIT;
     PosterConfig.margin := lit (127 # 10);
     PosterConfig.overlap := lit (635 # 100);
     PosterConfig.showCutLines := true;
     PosterConfig.cutLineStyle := dashed;
     PosterConfig.showPageNumbers := true |}.

Definition sevenWidthsPaper {N} `{JsNumber N} : PaperSize.t N :=
  selectedPaper sevenWidthsConfig.

Definition sevenWidthsGeometry {N} `{JsNumber N} : Geometry (N := N) :=
  geometry sevenWidthsConfig sevenWidthsPaper.

Definition isAddImage {N} (e : Event N) : bool :=
  match e with AddImage _ _ _ _ => true | _ => false end.

(** *** Text layers *)

Definition newline : string := String "010"%char EmptyString.

(** The font size of the font call of a layer's drawing. *)
Definition drawnFontSize (es : list (Event Q)) : option Q :=
  match find (fun e => match e with CtxFont _ _ _ => true | _ => false end) es with
  | Some (CtxFont _ px _) => Some px
  | _ => None
  end.

(** The lines of text drawn, each with its position, in the order drawn. *)
Definition drawnLines (es : list (Event Q)) : list (string * Q * Q) :=
  flat_map (fun e => match e with
                     | CtxFillText line x y => [(line, x, y)]
                     | _ => []
                     end) es.

(** Lines joined by line breaks. *)
Fixpoint joinLines (ls : list string) : string :=
  match ls with
  | [] => EmptyString
  | l :: rest =>
      match rest with
      | [] => l
      | _ :: _ => l ++ String "010"%char (joinLines rest)
      end
  end.

(** The font-size multiplier of a layer, 1 when absent. *)
Definition statedMultiplier (l : Layer.t Q) : Q :=
  match optChain (@Style.fontSize Q) (Layer.style l) with
  | Some m => m
  | None => 1
  end.

(** The font-size multiplier of a layer, 1 when absent or zero. *)
Definition effectiveMultiplier (l : Layer.t Q) : Q :=
  match optChain (@Style.fontSize Q) (Layer.style l) with
  | Some m => if Qeq_bool m 0 then 1 else m
  | None => 1
  end.

(** A two-line text whose size field was set to 0. *)
Definition zeroSizeText : Layer.t Q :=
  textLayer "layer-2" ("Grand" ++ newline ++ "Opening") (Some 0).

(** A two-line text of size 1. *)
Definition unitSizeText : Layer.t Q :=
  textLayer "layer-3" ("Grand" ++ newline ++ "Opening") (Some 1).

(** *** Cut marks *)

Definition isDocLine {N} (e : Event N) : bool :=
  match e with DocLine _ _ _ _ => true | _ => false end.

Definition isDocRect {N} (e : Event N) : bool :=
  match e with DocRect _ _ _ _ => true | _ => false end.

Definition between (a b p : Q) : bool :=
  (Qle_bool a p && Qle_bool p b) || (Qle_bool b p && Qle_bool p a).

(** A line of the document (all are horizontal or vertical) that passes
    through a point. *)
Definition lineThrough (p : Q * Q) (e : Event Q) : bool :=
  match e with
  | DocLine x1 y1 x2 y2 => between x1 x2 (fst p) && between y1 y2 (snd p)
  | _ => false
  end.

(** The corners of the printable rectangle of a page: top-left, top-right,
    bottom-left, bottom-right. *)
Definition printableCorners (cfg : PosterConfig.t Q) (g : Geometry)
  : list (Q * Q) :=
  let m := PosterConfig.margin cfg in
  [ (m, m); (m + g_printW g, m)%Q; (m, m + g_printH g)%Q;
    (m + g_printW g, m + g_printH g)%Q ].

Definition cornersMarked (es : list (Event Q)) (corners : list (Q * Q)) : bool :=
  forallb (fun p => existsb (lineThrough p) es) corners.

(** The calls that draw the cut guides of a page whose tile is [w] by [h]. *)
Definition cutGuides (cfg : PosterConfig.t Q) (inch : bool) (w h : Q)
  : list (Event Q) :=
  let m := PosterConfig.margin cfg in
  let len : Q := if inch then 2 # 10 else 5 in
  let off : Q := if inch then 8 # 100 else 2 in
  let dash : Q := if inch then 1 # 10 else 2 in
  [ SetLineWidth (if inch then 1 # 100 else 3 # 10)%Q;
    SetDrawColor 150 150 150;
    SetLineDashPattern
      (match PosterConfig.cutLineStyle cfg with dashed => [dash; dash] | _ => [] end)
      0%Q;
    DocRect m m w h;
    SetLineDashPattern [] 0%Q;
    SetDrawColor 0 0 0;
    DocLine (m - off) m (m + len) m;
    DocLine m (m - off) m (m + len);
    DocLine (m + w - len) (m + h) (m + w + off) (m + h);
    DocLine (m + w) (m + h - len) (m + w) (m + h + off) ]%Q.

From Stdlib Require Import DecimalNat.

(** ** The application's session state (App) *)

Inductive Tab := tab_settings | tab_layers.

Section Session.
Context {N : Type} `{JsNumber N}.
Local Open Scope js_scope.

(** The layers, the selection, the zoom factor and the active tab. *)
Record Session : Type := {
  s_layers : list (Layer.t N);
  s_selectedLayerId : option string;
  s_zoom : N;
  s_activeTab : Tab
}.

Definition initialSession : Session :=
  {| s_layers := []; s_selectedLayerId := None;
     s_zoom := lit (5 # 10); s_activeTab := tab_settings |}.

(** The layer [handleAddLayer] builds; [uuid] is the value of
    [crypto.randomUUID()]. *)
Definition newLayer (uuid : string) (type : LayerType) (content : string)
  : Layer.t N :=
  {| Layer.id := uuid;
     Layer.type := type;
     Layer.content := content;
     Layer.x := lit (25 # 100);
     Layer.y := lit (25 # 100);
     Layer.width := match type with image => lit (5 # 10) | text => lit (5 # 10) end;
     Layer.height := match type with image => lit (5 # 10) | text => lit (2 # 10) end;
     Layer.rotation := lit 0;
     Layer.opacity := lit 1;
     Layer.style :=
       match type with
       | text =>
           Some {| Style.color := Some "#000000"%string;
                   Style.fontSize := Some (lit 1);
                   Style.fontFamily := Some "Inter"%string;
                   Style.fontWeight := Some "bold"%string;
                   Style.backgroundColor := None |}
       | image => None
       end |}.

(** [handleAddLayer]: the layer is appended, selected, and the layers tab
    is shown. *)
Definition handleAddLayer (uuid : string) (type : LayerType) (content : string)
    (st : Session) : Session :=
  {| s_layers := s_layers st ++ [newLayer uuid type content];
     s_selectedLayerId := Some uuid;
     s_zoom := s_zoom st;
     s_activeTab := tab_layers |}.

(** [removeLayer] *)
Definition removeLayer (i : string) (st : Session) : Session :=
  {| s_layers := filter (fun l => negb (String.eqb (Layer.id l) i)) (s_layers st);
     s_selectedLayerId :=
       match s_selectedLayerId st with
       | Some sel => if String.eqb sel i then None else Some sel
       | None => None
       end;
     s_zoom := s_zoom st;
     s_activeTab := s_activeTab st |}.

(** [onLayerSelect]: a click on an entry of the layer list, a pointer-down
    on a layer, or (with [None]) a click on the workspace. *)
Definition selectLayer (sel : option string) (st : Session) : Session :=
  {| s_layers := s_layers st; s_selectedLayerId := sel;
     s_zoom := s_zoom st; s_activeTab := s_activeTab st |}.

(** [onLayerUpdate] on the session. *)
Definition sessionUpdateLayer (i : string) (u : LayerUpdate) (st : Session)
  : Session :=
  {| s_layers := updateLayer i u (s_layers st);
     s_selectedLayerId := s_selectedLayerId st;
     s_zoom := s_zoom st; s_activeTab := s_activeTab st |}.

(** The layer handed to the layer controls:
    [layers.find(l => l.id === selectedLayerId) || null]. *)
Definition selectedLayer (st : Session) : option (Layer.t N) :=
  match s_selectedLayerId st with
  | Some sel => find (fun l => String.eqb (Layer.id l) sel) (s_layers st)
  | None => None
  end.

(** The zoom buttons: [setZoom(Math.max(0.1, zoom - 0.1))] and
    [setZoom(Math.min(2, zoom + 0.1))]. *)
Definition zoomOutValue (zoom : N) : N := max (lit (1 # 10)) (zoom - lit (1 # 10)).

Definition zoomInValue (zoom : N) : N := min (lit 2) (zoom + lit (1 # 10)).

Definition zoomOut (st : Session) : Session :=
  {| s_layers := s_layers st; s_selectedLayerId := s_selectedLayerId st;
     s_zoom := zoomOutValue (s_zoom st); s_activeTab := s_activeTab st |}.

Definition zoomIn (st : Session) : Session :=
  {| s_layers := s_layers st; s_selectedLayerId := s_selectedLayerId st;
     s_zoom := zoomInValue (s_zoom st); s_activeTab := s_activeTab st |}.

Definition exportAlert : string :=
  "Failed to generate PDF. Please ensure all images are loaded.".

(** [handleExport]: the calls of the exporter on the selected paper, the
    alert shown when it throws, and the exporting flag left behind. *)
Record ExportRun : Type := {
  run_calls : list (Event N);
  run_alert : option string;
  run_isExporting : bool
}.

Definition handleExport (env : Browser) (config : PosterConfig.t N)
    (layers : list (Layer.t N)) : ExportRun :=
  let '(calls, outcome) :=
    generateTiledPDF env config layers (selectedPaper config) in
  {| run_calls := calls;
     run_alert := match outcome with
                  | Thrown _ => Some exportAlert
                  | Saved => None
                  end;
     run_isExporting := false |}.

(** The font size the workspace gives a text layer, in logical pixels. *)
Definition workspaceFontSize (visualH : N) (layer : Layer.t N) : N :=
  (visualH * lit (5 # 100))
  * orNumber (optChain (@Style.fontSize N) (Layer.style layer)) (lit 1).

End Session.

(** The actions of a session. *)
Inductive Action (N : Type) : Type :=
| AddLayer (uuid : string) (type : LayerType) (content : string)
| RemoveLayer (i : string)
| SelectListed (i : string)
| Deselect
| UpdateLayer (i : string) (u : LayerUpdate (N := N))
| ZoomIn
| ZoomOut.

Arguments Deselect {N}.
Arguments ZoomIn {N}.
Arguments ZoomOut {N}.
Arguments AddLayer {N}.
Arguments RemoveLayer {N}.
Arguments SelectListed {N}.

(** One action; an entry of the layer list can only be clicked when its
    layer exists. *)
Definition act {N} `{JsNumber N} (st : Session) (a : Action N) : Session :=
  match a with
  | AddLayer uuid type content => handleAddLayer uuid type content st
  | RemoveLayer i => removeLayer i st
  | SelectListed i =>
      if existsb (fun l => String.eqb (Layer.id l) i) (s_layers st)
      then selectLayer (Some i) st else st
  | Deselect => selectLayer None st
  | UpdateLayer i u => sessionUpdateLayer i u st
  | ZoomIn => zoomIn st
  | ZoomOut => zoomOut st
  end.

(** The selection is empty or names a layer of the session. *)
Definition selectionListed {N} (st : Session (N := N)) : Prop :=
  match s_selectedLayerId st with
  | Some sel => exists l, In l (s_layers st) /\ Layer.id l = sel
  | None => True
  end.

(** Calls on the PDF document [doc]. *)
Definition onDocument {N} (e : Event N) : bool :=
  match e with
  | NewDocument _ _ _ _ | DeletePage _ | AddPage _ _ _ | AddImage _ _ _ _
  | SetLineWidth _ | SetDrawColor _ _ _ | SetLineDashPattern _ _
  | DocRect _ _ _ _ | DocLine _ _ _ _ | SetFontSize _ | SetTextColor _
  | DocText _ _ _ | DocSave _ => true
  | _ => false
  end.

(** Calls on the temporary canvas of a tile: its creation, and the copy of
    a region of the virtual canvas onto it.  The copy reads the virtual
    canvas; it draws on the tile canvas. *)
Definition onTileCanvas {N} (e : Event N) : bool :=
  match e with
  | CreateTileCanvas _ _ | TileDrawImage _ _ _ _ _ _ _ _ => true
  | _ => false
  end.

(** Calls on the document or on a tile canvas: the calls the exporter
    makes once the virtual canvas is painted. *)
Definition onDocumentOrTile {N} (e : Event N) : bool :=
  onDocument e || onTileCanvas e.


(** What a gesture leaves alone in a layer. *)
Definition layerFrame {N} (l : Layer.t N)
  : string * LayerType * string * N * N * option (Style.t N) :=
  (Layer.id l, Layer.type l, Layer.content l, Layer.rotation l,
   Layer.opacity l, Layer.style l).

Definition layerSize {N} (l : Layer.t N) : N * N :=
  (Layer.width l, Layer.height l).

(** A session with one image and one text layer, the text selected. *)
Definition twoLayerSession : Session (N := Q) :=
  handleAddLayer "layer-2" text "Double click to edit"
    (handleAddLayer "layer-1" image "data:image/png" initialSession).

(** What the canvas was asked to paint, in order: the opacities set, the
    images drawn, the lines of text drawn. *)
Definition paintedOpacities {N} (es : list (Event N)) : list N :=
  flat_map (fun e => match e with CtxGlobalAlpha a => [a] | _ => [] end) es.

Definition paintedImages {N} (es : list (Event N)) : list string :=
  flat_map (fun e => match e with CtxDrawImage src _ _ _ _ => [src] | _ => [] end) es.

Definition paintedText {N} (es : list (Event N)) : list string :=
  flat_map (fun e => match e with CtxFillText line _ _ => [line] | _ => [] end) es.

Definition isCtxSave {N} (e : Event N) : bool :=
  match e with CtxSave => true | _ => false end.

Definition isCtxRestore {N} (e : Event N) : bool :=
  match e with CtxRestore => true | _ => false end.

Definition isImage {N} (l : Layer.t N) : bool :=
  match Layer.type l with image => true | text => false end.

Definition isText {N} (l : Layer.t N) : bool :=
  match Layer.type l with text => true | image => false end.

(** The sum of a list of rationals. *)
Definition sumQ (l : list Q) : Q := fold_right Qplus 0%Q l.

(** A value with at most two decimals. *)
Definition twoDecimals (x : Q) : Prop := exists k : Z, (x == inject_Z k / 100)%Q.

(** The initial configuration with the target width the user typed. *)
Definition typedWidthConfig (w : Q) : PosterConfig.t Q :=
  {| PosterConfig.mode := SIZE;
     PosterConfig.unit := INCH;
     PosterConfig.targetWidth := w;
     PosterConfig.targetHeight := 48;
     PosterConfig.gridRows := 3;
     PosterConfig.gridCols := 3;
     PosterConfig.paperId := DEFAULT_PAPER_ID;
     PosterConfig.orientation := PORTRAIT;
     PosterConfig.margin := 5 # 10;
     PosterConfig.overlap := 25 # 100;
     PosterConfig.showCutLines := true;
     PosterConfig.cutLineStyle := dashed;
     PosterConfig.showPageNumbers := true |}.

(** The corner of the box [(x, y, w, h)] a handle sits on. *)
Definition draggedCorner (h : Handle) (box : Q * Q * Q * Q) : Q * Q :=
  let '(x, y, w, h') := box in
  match h with
  | se => (x + w, y + h')
  | sw => (x, y + h')
  | ne => (x + w, y)
  | nw => (x, y)
  end.

(** The number of line breaks of a text. *)
Fixpoint lineBreaks (s : string) : nat :=
  match s with
  | EmptyString => 0
  | String c rest =>
      if Ascii.eqb c "010"%char then S (lineBreaks rest) else lineBreaks rest
  end.

Fixpoint hasLineBreak (s : string) : bool :=
  match s with
  | EmptyString => false
  | String c rest => Ascii.eqb c "010"%char || hasLineBreak rest
  end.

(** Decimal digits. *)
Definition isDigit (c : ascii) : bool :=
  match c with
  | "0"%char | "1"%char | "2"%char | "3"%char | "4"%char
  | "5"%char | "6"%char | "7"%char | "8"%char | "9"%char => true
  | _ => false
  end.

Fixpoint allDigits (s : string) : bool :=
  match s with
  | EmptyString => true
  | String c rest => isDigit c && allDigits rest
  end.

Unset Implicit Arguments.

(** ** Exact arithmetic: helper lemmas *)

Ltac js_unfold :=
  cbn [add sub mul div opp ltb leb min max ceil truthy toFixed2 lit of_Z
       Q_JsNumber] in *.

Lemma Q_toFixed2_close (x : Q) : (Qabs (Q_toFixed2 x - x) <= 1 # 200)%Q.
Proof.
  unfold Q_toFixed2.
  destruct (Qle_bool (inject_Z (10 ^ 21)) (Qabs x)).
  - setoid_replace (x - x)%Q with 0%Q by ring. discriminate.
  - set (n := Qfloor (Qabs x * 100 + (1 # 2))).
    assert (Hlo : (inject_Z n <= Qabs x * 100 + (1 # 2))%Q) by apply Qfloor_le.
    assert (Hhi : (Qabs x * 100 + (1 # 2) < inject_Z (n + 1))%Q) by apply Qlt_floor.
    rewrite inject_Z_plus in Hhi. change (inject_Z 1) with 1%Q in Hhi.
    generalize dependent (inject_Z n). clear n. intros q Hlo Hhi.
    apply Qabs_Qle_condition. unfold Qdiv. change (/ 100)%Q with (1 # 100)%Q.
    destruct (Qle_bool 0 x) eqn:Hs.
    + apply Qle_bool_iff in Hs. rewrite (Qabs_pos x Hs) in *.
      split; lra.
    + assert (Hneg : (x < 0)%Q).
      { apply Qnot_le_lt. intro Hc. apply Qle_bool_iff in Hc. congruence. }
      rewrite (Qabs_neg x) in * by lra.
      split; lra.
Qed.

(** Rounding to inches and back moves a value by at most
    [25.4 * 0.005 + 0.005]. *)
Lemma two_roundings_bound (x : Q) :
  (Qabs (Q_toFixed2 (Q_toFixed2 (x * (1 / (254 # 10))) * (254 # 10)) - x)
   <= 132 # 1000)%Q.
Proof.
  change (1 / (254 # 10))%Q with (10 # 254)%Q.
  pose proof (Q_toFixed2_close (x * (10 # 254))) as Ha.
  set (a := Q_toFixed2 (x * (10 # 254))) in *.
  pose proof (Q_toFixed2_close (a * (254 # 10))) as Hb.
  set (b := Q_toFixed2 (a * (254 # 10))) in *.
  apply Qabs_Qle_condition in Ha, Hb. apply Qabs_Qle_condition.
  destruct Ha, Hb. split; lra.
Qed.

(** ** Binary64 arithmetic: the instance computes as JavaScript does *)

Example f64_lit : F64.lit (254 # 10) = 25.4%float.
Proof. reflexivity. Qed.

Example f64_ceil_up : F64.ceil 4.8%float = 5%Z.
Proof. reflexivity. Qed.

Example f64_ceil_negative : F64.ceil (-4.8)%float = (-4)%Z.
Proof. reflexivity. Qed.

Example f64_ceil_integer : F64.ceil 3%float = 3%Z.
Proof. reflexivity. Qed.

Example f64_toFixed2_inch : F64.toFixed2 (100 * (1 / 25.4))%float = 3.94%float.
Proof. reflexivity. Qed.

Example f64_toFixed2_mm : F64.toFixed2 (3.94 * 25.4)%float = 100.08%float.
Proof. reflexivity. Qed.

Example f64_toFixed2_negative : F64.toFixed2 (-1.005)%float = (-1)%float.
Proof. reflexivity. Qed.

Example f64_letter_width : (215.9 / 25.4)%float = 8.5%float.
Proof. reflexivity. Qed.

(** ** Unit toggle *)

(** C6, as amended: a value converted from millimeters to inches and back
    by two unit toggles (each multiplying by 1/25.4 or 25.4 and rounding to
    2 decimal places) ends within 0.132 of the original; this holds for each
    of the four physical fields.  The first rounding alone can move the
    value by 0.005 inch, which is 0.127 mm. *)
Theorem unit_round_trip_within_0_132 (cfg : PosterConfig.t Q) :
  PosterConfig.unit cfg = MM ->
  let back := toggleUnitConfig (toggleUnitConfig cfg) in
  PosterConfig.unit back = MM /\
  (Qabs (PosterConfig.targetWidth back - PosterConfig.targetWidth cfg) <= 132 # 1000)%Q /\
  (Qabs (PosterConfig.targetHeight back - PosterConfig.targetHeight cfg) <= 132 # 1000)%Q /\
  (Qabs (PosterConfig.margin back - PosterConfig.margin cfg) <= 132 # 1000)%Q /\
  (Qabs (PosterConfig.overlap back - PosterConfig.overlap cfg) <= 132 # 1000)%Q.
Proof.
  intros Hu. unfold toggleUnitConfig. rewrite Hu. cbn.
  repeat split; apply two_roundings_bound.
Qed.

Lemma unit_round_trip_within_0_132_witness :
  (Qabs (roundTrip 100 - 100) <= 132 # 1000)%Q.
Proof.
  exact (proj1 (proj2 (unit_round_trip_within_0_132 (mmConfig 100) eq_refl))).
Defined.

(** C6, as stated, fails: 100 mm becomes 3.94 in, which comes back as
    100.08 mm, 0.08 away from the original. *)
Lemma unit_round_trip_counterexample :
  PosterConfig.unit (mmConfig (N := Q) 100) = MM /\
  (0 < 100)%Q /\
  (roundTrip 100 == 10008 # 100)%Q /\
  ~ (Qabs (roundTrip 100 - 100) <= 1 # 100)%Q.
Proof.
  split; [reflexivity|]. split; [reflexivity|]. split; [reflexivity|].
  intro Hle. apply Qle_bool_iff in Hle. vm_compute in Hle. discriminate.
Qed.

(** C10: toggling the unit flips the unit, replaces the four physical fields
    by their product with the conversion factor (1/25.4 towards inches, 25.4
    towards millimeters) rounded to 2 decimal places, and leaves every other
    field of the configuration, and the layers, as they were. *)
Theorem toggleUnit_frame {N : Type} `{JsNumber N} (st : AppState (N := N)) :
  let c := config st in
  let c' := config (toggleUnit st) in
  let factor := match PosterConfig.unit c with
                | MM => (lit 1 / lit (254 # 10))%js
                | INCH => lit (254 # 10)
                end in
  PosterConfig.unit c' = match PosterConfig.unit c with MM => INCH | INCH => MM end
  /\ PosterConfig.targetWidth c' = toFixed2 (PosterConfig.targetWidth c * factor)%js
  /\ PosterConfig.targetHeight c' = toFixed2 (PosterConfig.targetHeight c * factor)%js
  /\ PosterConfig.margin c' = toFixed2 (PosterConfig.margin c * factor)%js
  /\ PosterConfig.overlap c' = toFixed2 (PosterConfig.overlap c * factor)%js
  /\ PosterConfig.mode c' = PosterConfig.mode c
  /\ PosterConfig.gridRows c' = PosterConfig.gridRows c
  /\ PosterConfig.gridCols c' = PosterConfig.gridCols c
  /\ PosterConfig.paperId c' = PosterConfig.paperId c
  /\ PosterConfig.orientation c' = PosterConfig.orientation c
  /\ PosterConfig.showCutLines c' = PosterConfig.showCutLines c
  /\ PosterConfig.cutLineStyle c' = PosterConfig.cutLineStyle c
  /\ PosterConfig.showPageNumbers c' = PosterConfig.showPageNumbers c
  /\ layers (toggleUnit st) = layers st.
Proof.
  destruct st as [c ls]. cbn [config layers toggleUnit].
  unfold toggleUnitConfig.
  destruct (PosterConfig.unit c); cbn; repeat split; reflexivity.
Qed.

(** ** Gestures *)

Section Gestures.
Context {N : Type} `{JsNumber N}.

Lemma mergeLayer_overwrite (l : Layer.t N) (x1 y1 x2 y2 : N) :
  mergeLayer
    (mergeLayer l {| upd_x := Some x1; upd_y := Some y1;
                     upd_width := None; upd_height := None |})
    {| upd_x := Some x2; upd_y := Some y2; upd_width := None; upd_height := None |}
  = mergeLayer l {| upd_x := Some x2; upd_y := Some y2;
                    upd_width := None; upd_height := None |}.
Proof. destruct l. reflexivity. Qed.

Lemma updateLayer_overwrite (i : string) (x1 y1 x2 y2 : N) (ls : list (Layer.t N)) :
  updateLayer i {| upd_x := Some x2; upd_y := Some y2;
                   upd_width := None; upd_height := None |}
    (updateLayer i {| upd_x := Some x1; upd_y := Some y1;
                      upd_width := None; upd_height := None |} ls)
  = updateLayer i {| upd_x := Some x2; upd_y := Some y2;
                     upd_width := None; upd_height := None |} ls.
Proof.
  unfold updateLayer. rewrite map_map. apply map_ext. intros l.
  destruct (String.eqb (Layer.id l) i) eqn:Hid.
  - cbn [mergeLayer Layer.id]. rewrite Hid. apply mergeLayer_overwrite.
  - rewrite Hid. reflexivity.
Qed.

(** A pointer-down on a layer starts a gesture on a copy of that layer. *)
Lemma pointerDown_snapshot (e : MouseEvent) (layerId : string)
    (handle : option Handle) (st : Editor) (layer : Layer.t N) :
  find (fun l => String.eqb (Layer.id l) layerId) (ed_layers st) = Some layer ->
  ed_layers (pointerDown e layerId handle st) = ed_layers st
  /\ ed_selected (pointerDown e layerId handle st) = Some layerId
  /\ startLayer (ed_interaction (pointerDown e layerId handle st)) = Some layer
  /\ startMouse (ed_interaction (pointerDown e layerId handle st)) = e
  /\ mode (ed_interaction (pointerDown e layerId handle st))
     = match handle with Some _ => resizing | None => moving end.
Proof.
  intros Hfind. unfold pointerDown, handleMouseDown. rewrite Hfind.
  repeat split; reflexivity.
Qed.

Variables zoom visualW visualH : N.

Lemma handleMouseMove_moving (sel : option string) (i : Interaction)
    (sl : Layer.t N) (id : string) (e : MouseEvent) :
  mode i = moving -> startLayer i = Some sl -> selection sel = Some id ->
  handleMouseMove zoom visualW visualH sel i e
  = Some (id,
          {| upd_x := Some (Layer.x sl
                            + ((fst e - fst (startMouse i)) / zoom) / visualW)%js;
             upd_y := Some (Layer.y sl
                            + ((snd e - snd (startMouse i)) / zoom) / visualH)%js;
             upd_width := None; upd_height := None |}).
Proof.
  intros Hm Hs Hsel. unfold handleMouseMove. rewrite Hm, Hs, Hsel. reflexivity.
Qed.

Lemma pointerMove_last (st : Editor) (sl : Layer.t N) (id : string)
    (e1 e2 : MouseEvent) :
  mode (ed_interaction st) = moving ->
  startLayer (ed_interaction st) = Some sl ->
  selection (ed_selected st) = Some id ->
  pointerMove zoom visualW visualH (pointerMove zoom visualW visualH st e1) e2
  = pointerMove zoom visualW visualH st e2.
Proof.
  intros Hm Hs Hsel. unfold pointerMove at 2.
  rewrite (handleMouseMove_moving _ _ _ _ e1 Hm Hs Hsel).
  unfold pointerMove. cbn [ed_selected ed_interaction ed_layers].
  rewrite !(handleMouseMove_moving _ _ _ _ _ Hm Hs Hsel).
  f_equal. apply updateLayer_overwrite.
Qed.

Lemma pointerMove_keeps (st : Editor) (e : MouseEvent) :
  ed_interaction (pointerMove zoom visualW visualH st e) = ed_interaction st
  /\ ed_selected (pointerMove zoom visualW visualH st e) = ed_selected st.
Proof.
  unfold pointerMove.
  destruct (handleMouseMove _ _ _ _ _ _) as [[i u]|]; split; reflexivity.
Qed.

Lemma pointerMoves_last (es : list MouseEvent) :
  forall (st : Editor) (sl : Layer.t N) (id : string) (e : MouseEvent),
  mode (ed_interaction st) = moving ->
  startLayer (ed_interaction st) = Some sl ->
  selection (ed_selected st) = Some id ->
  fold_left (pointerMove zoom visualW visualH) (es ++ [e]) st
  = pointerMove zoom visualW visualH st e.
Proof.
  induction es as [|e1 es IH]; intros st sl id e Hm Hs Hsel.
  - reflexivity.
  - cbn [app fold_left].
    destruct (pointerMove_keeps st e1) as [Hi Hk].
    rewrite (IH _ sl id e); [ | rewrite Hi; assumption .. | rewrite Hk; assumption ].
    apply (pointerMove_last _ _ _ _ _ Hm Hs Hsel).
Qed.

(** C5: during a move gesture the update is computed from the snapshot
    taken at gesture start, the pointer, the zoom factor and the logical
    size of the surface only: x = startLayer.x + ((pointerX - startX) / zoom)
    / visualW, and likewise y.  Hence handling the same event twice, or
    handling any events before it, leaves the same state as handling that
    event alone. *)
Theorem move_recomputed_from_snapshot (st : Editor) (sl : Layer.t N)
    (id : string) (e : MouseEvent) (es : list MouseEvent) :
  mode (ed_interaction st) = moving ->
  startLayer (ed_interaction st) = Some sl ->
  selection (ed_selected st) = Some id ->
  let start := startMouse (ed_interaction st) in
  let moved :=
    {| upd_x := Some (Layer.x sl + ((fst e - fst start) / zoom) / visualW)%js;
       upd_y := Some (Layer.y sl + ((snd e - snd start) / zoom) / visualH)%js;
       upd_width := None; upd_height := None |} in
  handleMouseMove zoom visualW visualH (ed_selected st) (ed_interaction st) e
  = Some (id, moved)
  /\ ed_layers (pointerMove zoom visualW visualH st e)
     = updateLayer id moved (ed_layers st)
  /\ pointerMove zoom visualW visualH (pointerMove zoom visualW visualH st e) e
     = pointerMove zoom visualW visualH st e
  /\ fold_left (pointerMove zoom visualW visualH) (es ++ [e]) st
     = pointerMove zoom visualW visualH st e
  /\ pointerUp (fold_left (pointerMove zoom visualW visualH) (es ++ [e]) st)
     = pointerUp (pointerMove zoom visualW visualH st e).
Proof.
  intros Hm Hs Hsel start moved.
  pose proof (handleMouseMove_moving _ _ _ _ e Hm Hs Hsel) as Hcall.
  split; [exact Hcall|]. split.
  { unfold pointerMove. fold start in Hcall. rewrite Hcall. reflexivity. }
  split; [apply (pointerMove_last _ _ _ _ _ Hm Hs Hsel)|].
  rewrite (pointerMoves_last es _ _ _ e Hm Hs Hsel). split; reflexivity.
Qed.

End Gestures.

Lemma move_recomputed_from_snapshot_witness :
  ed_layers
    (fold_left (pointerMove (1 # 2) 600 800)
       ([(130, 90); (250, 180)] ++ [(160, 140)])%Q sampleMove)
  = ed_layers (pointerMove (1 # 2) 600 800 sampleMove (160, 140)%Q).
Proof.
  exact (f_equal (@ed_layers Q)
           (proj1 (proj2 (proj2 (proj2
              (move_recomputed_from_snapshot (1 # 2) 600 800 sampleMove _ _
                 (160, 140)%Q [(130, 90); (250, 180)]%Q
                 eq_refl eq_refl eq_refl)))))).
Defined.

(** ** Resize *)

Lemma Qltb_true (a b : Q) : negb (Qle_bool b a) = true -> (a < b)%Q.
Proof.
  intros Hb. apply Qnot_le_lt. intro Hle. apply Qle_bool_iff in Hle.
  rewrite Hle in Hb. discriminate.
Qed.

Lemma Qltb_false (a b : Q) : negb (Qle_bool b a) = false -> (b <= a)%Q.
Proof.
  intros Hb. apply Qle_bool_iff. destruct (Qle_bool b a); [reflexivity|discriminate].
Qed.

Lemma Qmax_floor (m p : Q) : (m <= Qmax m p)%Q.
Proof. apply Q.le_max_l. Qed.

Lemma Qmax_clamped (m p : Q) : (p < m)%Q -> (Qmax m p == m)%Q.
Proof. intros Hlt. apply Q.max_l. apply Qlt_le_weak. exact Hlt. Qed.

(** What [resizeBox] guarantees, for each handle. *)
Lemma resizeBox_clamp (h : Handle) (sl : Layer.t Q) (dx dy : Q) :
  let '(nx, ny, nw', nh') := resizeBox h sl dx dy in
  ((proposedWidth h sl dx < 1 # 100)%Q -> (nw' == 1 # 100)%Q)
  /\ ((proposedHeight h sl dy < 1 # 100)%Q -> (nh' == 1 # 100)%Q)
  /\ (fst (fixedCorner h (nx, ny, nw', nh')) == fst (fixedCorner h (layerBox sl)))%Q
  /\ (snd (fixedCorner h (nx, ny, nw', nh')) == snd (fixedCorner h (layerBox sl)))%Q
  /\ (1 # 100 <= nw')%Q /\ (1 # 100 <= nh')%Q.
Proof.
  unfold resizeBox, MIN_SIZE, layerBox, proposedWidth, proposedHeight.
  js_unfold.
  destruct h; cbn [fixedCorner fst snd];
    repeat match goal with
           | |- context [negb (Qle_bool ?b ?a)] =>
               let Hc := fresh "Hc" in
               destruct (negb (Qle_bool b a)) eqn:Hc;
               [apply Qltb_true in Hc | apply Qltb_false in Hc]
           end;
    cbn [fst snd];
    repeat split;
    try (intros Hp; first [ apply Qmax_clamped; exact Hp | reflexivity | lra ]);
    try apply Qmax_floor; try reflexivity; try lra.
Qed.

(** C4: a resize with any corner handle and any pointer delta updates the
    layer to a box whose width (height) is exactly the floor 0.01 whenever
    the proposed width (height) is below it, whose corner opposite to the
    handle has the fractional coordinates it had at gesture start, and whose
    width and height are never below 0.01. *)
Theorem resize_clamps_at_floor (zoom visualW visualH : Q)
    (sel : option string) (i : Interaction) (e : MouseEvent)
    (h : Handle) (sl : Layer.t Q) (id : string) :
  mode i = resizing -> activeHandle i = Some h ->
  startLayer i = Some sl -> selection sel = Some id ->
  let dx := (((fst e - fst (startMouse i)) / zoom) / visualW)%Q in
  let dy := (((snd e - snd (startMouse i)) / zoom) / visualH)%Q in
  exists nx ny nw' nh' : Q,
    handleMouseMove zoom visualW visualH sel i e
    = Some (id, {| upd_x := Some nx; upd_y := Some ny;
                   upd_width := Some nw'; upd_height := Some nh' |})
    /\ ((proposedWidth h sl dx < 1 # 100)%Q -> (nw' == 1 # 100)%Q)
    /\ ((proposedHeight h sl dy < 1 # 100)%Q -> (nh' == 1 # 100)%Q)
    /\ (fst (fixedCorner h (nx, ny, nw', nh')) == fst (fixedCorner h (layerBox sl)))%Q
    /\ (snd (fixedCorner h (nx, ny, nw', nh')) == snd (fixedCorner h (layerBox sl)))%Q
    /\ (1 # 100 <= nw')%Q /\ (1 # 100 <= nh')%Q.
Proof.
  intros Hm Hh Hs Hsel dx dy.
  unfold handleMouseMove. rewrite Hm, Hh, Hs, Hsel.
  js_unfold. fold dx dy.
  pose proof (resizeBox_clamp h sl dx dy) as Hbox.
  destruct (resizeBox h sl dx dy) as [[[nx ny] nw'] nh'].
  exists nx, ny, nw', nh'. split; [reflexivity | exact Hbox].
Qed.

Lemma resize_clamps_at_floor_witness :
  exists nx ny nw' nh' : Q,
    handleMouseMove 1 1000 1000 (ed_selected sampleResize)
      (ed_interaction sampleResize) (700, 40)%Q
    = Some ("layer-1"%string,
            {| upd_x := Some nx; upd_y := Some ny;
               upd_width := Some nw'; upd_height := Some nh' |})
    /\ (nx + nw' == (25 # 100) + (5 # 10))%Q /\ (nw' == 1 # 100)%Q.
Proof.
  destruct (resize_clamps_at_floor 1 1000 1000 (ed_selected sampleResize)
              (ed_interaction sampleResize) (700, 40)%Q _ _ _
              eq_refl eq_refl eq_refl eq_refl)
    as (nx & ny & nw' & nh' & Hcall & Hw & _ & Hfx & _).
  exists nx, ny, nw', nh'. split; [exact Hcall|]. split.
  - exact Hfx.
  - apply Hw. reflexivity.
Defined.

(** ** Export: structure of the trace *)

Section Trace.
Context {N : Type} `{JsNumber N}.

Lemma filter_flat_map {A B} (p : B -> bool) (f : A -> list B) (l : list A) :
  filter p (flat_map f l) = flat_map (fun a => filter p (f a)) l.
Proof.
  induction l as [|a l IH]; cbn; [reflexivity|].
  rewrite filter_app, IH. reflexivity.
Qed.

Lemma filter_none {A} (p q : A -> bool) (l : list A) :
  (forall a, q a = true -> p a = false) -> forallb q l = true -> filter p l = [].
Proof.
  intros Hpq. induction l as [|a l IH]; cbn; [reflexivity|].
  intros Hall. apply andb_true_iff in Hall as [Ha Hl].
  rewrite (Hpq a Ha). apply IH, Hl.
Qed.

Lemma forEachIndexed_forallb {A B} (q : B -> bool) (f : A -> nat -> list B)
    (xs : list A) :
  (forall x i, forallb q (f x i) = true) ->
  forall k, forallb q (forEachIndexed f k xs) = true.
Proof.
  intros Hf. induction xs as [|x xs IH]; intros k; cbn; [reflexivity|].
  rewrite forallb_app, Hf, IH. reflexivity.
Qed.

Lemma drawLayer_onCanvas (cw ch : Z) (l : Layer.t N) :
  forallb onCanvas (drawLayer cw ch l) = true.
Proof.
  unfold drawLayer. rewrite !forallb_app.
  destruct (Layer.type l).
  - reflexivity.
  - rewrite forallb_app, forEachIndexed_forallb; reflexivity.
Qed.

Lemma drawLayers_onCanvas (cw ch : Z) (ls : list (Layer.t N)) :
  forallb onCanvas (flat_map (drawLayer cw ch) ls) = true.
Proof.
  induction ls as [|l ls IH]; cbn [flat_map]; [reflexivity|].
  rewrite forallb_app, drawLayer_onCanvas, IH. reflexivity.
Qed.

Lemma drawLayers_filter (p : Event N -> bool) (cw ch : Z) (ls : list (Layer.t N)) :
  (forall e, onCanvas e = true -> p e = false) ->
  filter p (flat_map (drawLayer cw ch) ls) = [].
Proof.
  intros Hp. apply (filter_none p onCanvas); [exact Hp | apply drawLayers_onCanvas].
Qed.

Lemma onCanvas_not_page (e : Event N) : onCanvas e = true -> isAddPage e = false.
Proof. destruct e; cbn; congruence. Qed.

Lemma onCanvas_not_label (e : Event N) : onCanvas e = true -> isPageOrLabel e = false.
Proof. destruct e; cbn; congruence. Qed.

Lemma onCanvas_not_save (e : Event N) : onCanvas e = true -> isDocSave e = false.
Proof. destruct e; cbn; congruence. Qed.

Ltac page_cases :=
  unfold pageEvents;
  repeat match goal with
         | |- context [if ?b then _ else _] => destruct b
         | |- context [match PosterConfig.cutLineStyle ?c with _ => _ end] =>
             destruct (PosterConfig.cutLineStyle c)
         end;
  reflexivity.

Lemma pageEvents_pageAndLabel (env : Browser) (cfg : PosterConfig.t N)
    (g : Geometry) (rc : nat * nat) :
  filter isPageOrLabel (pageEvents env cfg g (fst rc) (snd rc))
  = pageAndLabel cfg g rc.
Proof.
  unfold pageAndLabel. page_cases.
Qed.

Lemma pageEvents_one_page (env : Browser) (cfg : PosterConfig.t N)
    (g : Geometry) (r c : nat) :
  List.length (filter isAddPage (pageEvents env cfg g r c)) = 1%nat.
Proof. page_cases. Qed.

Lemma pageEvents_no_save (env : Browser) (cfg : PosterConfig.t N)
    (g : Geometry) (r c : nat) :
  filter isDocSave (pageEvents env cfg g r c) = [].
Proof. page_cases. Qed.

Lemma flat_map_length_const {A B} (f : A -> list B) (n : nat) (l : list A) :
  (forall a, List.length (f a) = n) ->
  List.length (flat_map f l) = (List.length l * n)%nat.
Proof.
  intros Hf. induction l as [|a l IH]; cbn; [reflexivity|].
  rewrite length_app, Hf, IH. reflexivity.
Qed.

Lemma flat_map_nil {A B} (f : A -> list B) (l : list A) :
  (forall a, f a = []) -> flat_map f l = [].
Proof.
  intros Hf. induction l as [|a l IH]; cbn; [reflexivity|].
  rewrite Hf, IH. reflexivity.
Qed.

End Trace.

(** The cells of the two nested loops: row by row, each row from its first
    column to its last. *)
Lemma cells_from (cols : nat) : forall (n s r c : nat),
  (r < n)%nat -> (c < cols)%nat ->
  nth_error (flat_map (fun r' => map (fun c' => (r', c')) (seq 0 cols)) (seq s n))
            (r * cols + c)
  = Some ((s + r)%nat, c).
Proof.
  induction n as [|n IH]; intros s r c Hr Hc; [lia|].
  cbn [seq flat_map]. destruct r as [|r].
  - cbn [Nat.mul Nat.add]. rewrite nth_error_app1 by (rewrite length_map, length_seq; exact Hc).
    rewrite nth_error_map, nth_error_seq.
    destruct (Nat.ltb_spec c cols); [|lia].
    cbn. rewrite Nat.add_0_r. reflexivity.
  - rewrite nth_error_app2 by (rewrite length_map, length_seq; cbn; lia).
    rewrite length_map, length_seq.
    replace (S r * cols + c - cols)%nat with (r * cols + c)%nat by (cbn; lia).
    rewrite IH by lia. f_equal. f_equal. lia.
Qed.

Lemma pageCells_row_major (rows cols : Z) (r c : nat) :
  (r < Z.to_nat rows)%nat -> (c < Z.to_nat cols)%nat ->
  nth_error (pageCells rows cols) (r * Z.to_nat cols + c) = Some (r, c).
Proof.
  intros Hr Hc. unfold pageCells.
  apply (@cells_from (Z.to_nat cols) (Z.to_nat rows) 0%nat r c Hr Hc).
Qed.

Lemma pageCells_length (rows cols : Z) :
  List.length (pageCells rows cols) = (Z.to_nat rows * Z.to_nat cols)%nat.
Proof.
  unfold pageCells.
  rewrite flat_map_length_const with (n := Z.to_nat cols).
  - rewrite length_seq. reflexivity.
  - intros r. rewrite length_map, length_seq. reflexivity.
Qed.

Example pageLabel_second_row_third_column :
  pageLabel 1 2 = "Page 2-3 (Row 2, Col 3)"%string.
Proof. reflexivity. Qed.

(** C7: an export that passes the margin check, on a browser that grants
    the canvas context, ends by saving; it adds exactly rows * cols pages;
    the pages follow the cells in row-major order (cell (r, c) is number
    r * cols + c), each with the label "Page r+1-c+1 (Row r+1, Col c+1)"
    when page numbers are on; and its last call saves the document as
    "docuslice-poster.pdf", whatever the configuration. *)
Theorem export_pages_row_major {N : Type} `{JsNumber N} (env : Browser)
    (cfg : PosterConfig.t N) (ls : list (Layer.t N)) (paper : PaperSize.t N) :
  let g := geometry cfg paper in
  let rows := Z.to_nat (g_rows g) in
  let cols := Z.to_nat (g_cols g) in
  let cells := pageCells (g_rows g) (g_cols g) in
  let trace := fst (generateTiledPDF env cfg ls paper) in
  canvasContext env = true ->
  ((g_printW g <=? lit 0) || (g_printH g <=? lit 0))%js = false ->
  snd (generateTiledPDF env cfg ls paper) = Saved
  /\ List.length (filter isAddPage trace) = (rows * cols)%nat
  /\ filter isPageOrLabel trace = flat_map (pageAndLabel cfg g) cells
  /\ List.length cells = (rows * cols)%nat
  /\ (forall r c, (r < rows)%nat -> (c < cols)%nat ->
        nth_error cells (r * cols + c) = Some (r, c))
  /\ (exists before, trace = before ++ [DocSave "docuslice-poster.pdf"])
  /\ filter isDocSave trace = [DocSave "docuslice-poster.pdf"].
Proof.
  intros g rows cols cells trace Hctx Hmargin.
  subst trace. unfold generateTiledPDF. fold g. rewrite Hmargin, Hctx.
  cbn [negb fst snd]. split; [reflexivity|].
  split.
  { rewrite !filter_app, (drawLayers_filter _ _ _ _ (@onCanvas_not_page N)).
    cbn [filter isAddPage app]. rewrite app_nil_r, filter_flat_map.
    rewrite flat_map_length_const with (n := 1%nat).
    - fold cells. unfold cells. rewrite pageCells_length. lia.
    - intros rc. apply pageEvents_one_page. }
  split.
  { rewrite !filter_app, (drawLayers_filter _ _ _ _ (@onCanvas_not_label N)).
    cbn [filter isPageOrLabel app]. rewrite app_nil_r, filter_flat_map.
    apply flat_map_ext. intros rc. apply pageEvents_pageAndLabel. }
  split; [apply pageCells_length|].
  split; [intros r c; apply pageCells_row_major|].
  split.
  { eexists. rewrite !app_assoc. reflexivity. }
  rewrite !filter_app, (drawLayers_filter _ _ _ _ (@onCanvas_not_save N)).
  cbn [filter isDocSave app]. rewrite filter_flat_map, flat_map_nil.
  - reflexivity.
  - intros rc. apply pageEvents_no_save.
Qed.

Lemma export_pages_row_major_witness :
  List.length (filter isAddPage
    (fst (generateTiledPDF (N := Q) browser initialConfig []
            (selectedPaper initialConfig)))) = 9%nat
  /\ nth_error (pageCells 3 3) (1 * 3 + 2) = Some (1%nat, 2%nat).
Proof.
  pose proof (export_pages_row_major (N := Q) browser initialConfig []
                (selectedPaper initialConfig) eq_refl eq_refl)
    as (_ & Hcount & _ & _ & Hcell & _).
  split.
  - exact Hcount.
  - apply (Hcell 1%nat 2%nat); vm_compute; lia.
Defined.

(** ** Export: the margin check *)

Lemma export_margin_check {N : Type} `{JsNumber N} (env : Browser)
    (cfg : PosterConfig.t N) (ls : list (Layer.t N)) (paper : PaperSize.t N) :
  let g := geometry cfg paper in
  if ((g_printW g <=? lit 0) || (g_printH g <=? lit 0))%js
  then generateTiledPDF env cfg ls paper = ([], Thrown marginError)
  else snd (generateTiledPDF env cfg ls paper) <> Thrown marginError
       /\ exists w h rest,
            fst (generateTiledPDF env cfg ls paper) = CreateCanvas w h :: rest.
Proof.
  intros g. unfold generateTiledPDF. fold g.
  destruct ((g_printW g <=? lit 0) || (g_printH g <=? lit 0))%js.
  - reflexivity.
  - destruct (canvasContext env); cbn [negb fst snd].
    + split; [discriminate|]. do 3 eexists. reflexivity.
    + split; [unfold marginError, contextError; discriminate|].
      do 3 eexists. reflexivity.
Qed.

(** C3: the printable dimensions are the oriented paper dimensions minus
    twice the margin; when either is <= 0 the export throws the margin
    error having made no call at all (no canvas, no page); when both are
    > 0 the margin error is not thrown (and the canvas is created). *)
Theorem margin_error_before_any_call (env : Browser) (cfg : PosterConfig.t Q)
    (ls : list (Layer.t Q)) (paper : PaperSize.t Q) :
  let g := geometry cfg paper in
  g_printW g = (pWidth g - PosterConfig.margin cfg * 2)%Q
  /\ g_printH g = (pHeight g - PosterConfig.margin cfg * 2)%Q
  /\ ((g_printW g <= 0 \/ g_printH g <= 0)%Q ->
        generateTiledPDF env cfg ls paper = ([], Thrown marginError))
  /\ ((0 < g_printW g /\ 0 < g_printH g)%Q ->
        snd (generateTiledPDF env cfg ls paper) <> Thrown marginError
        /\ exists w h rest,
             fst (generateTiledPDF env cfg ls paper) = CreateCanvas w h :: rest).
Proof.
  intros g. split; [reflexivity|]. split; [reflexivity|].
  pose proof (export_margin_check env cfg ls paper) as Hcheck.
  fold g in Hcheck. js_unfold.
  destruct (Qle_bool (g_printW g) 0 || Qle_bool (g_printH g) 0) eqn:Hb.
  - split; [intros _; exact Hcheck|].
    intros [Hw Hh]. apply orb_true_iff in Hb.
    destruct Hb as [Hb|Hb]; apply Qle_bool_iff in Hb; lra.
  - split; [|intros _; exact Hcheck].
    apply orb_false_iff in Hb. destruct Hb as [Hw Hh].
    intros [Hle|Hle]; apply Qle_bool_iff in Hle; congruence.
Qed.

Lemma margin_error_before_any_call_witness :
  generateTiledPDF browser wideMarginConfig
    [imageLayer "layer-1" "data:image/png"] (selectedPaper wideMarginConfig)
  = ([], Thrown marginError)
  /\ snd (generateTiledPDF (N := Q) browser initialConfig []
            (selectedPaper initialConfig)) <> Thrown marginError.
Proof.
  split.
  - apply (proj1 (proj2 (proj2
      (margin_error_before_any_call browser wideMarginConfig
         [imageLayer "layer-1" "data:image/png"]
         (selectedPaper wideMarginConfig))))).
    left. vm_compute. discriminate.
  - apply (proj2 (proj2 (proj2
      (margin_error_before_any_call browser initialConfig []
         (selectedPaper initialConfig))))).
    split; reflexivity.
Defined.

(** ** Layout: exact arithmetic *)

Lemma inject_Z_pred (k : Z) : (inject_Z (k - 1) == inject_Z k - 1)%Q.
Proof.
  unfold Z.sub. rewrite inject_Z_plus, inject_Z_opp. reflexivity.
Qed.

Lemma Qltb_intro (a b : Q) : (a < b)%Q -> negb (Qle_bool b a) = true.
Proof.
  intros Hlt. destruct (Qle_bool b a) eqn:Hb; [|reflexivity].
  apply Qle_bool_iff in Hb. lra.
Qed.

(** The ceiling of a quotient covers the dividend, and one step less does
    not. *)
Lemma ceiling_cover (t p : Q) :
  (0 < p)%Q ->
  ((inject_Z (Qceiling (t / p)) - 1) * p < t)%Q
  /\ (t <= inject_Z (Qceiling (t / p)) * p)%Q.
Proof.
  intros Hp.
  pose proof (Qceiling_lt (t / p)) as Hlo.
  pose proof (Qle_ceiling (t / p)) as Hhi.
  rewrite inject_Z_pred in Hlo.
  assert (Hq : (t / p * p == t)%Q) by (field; lra).
  generalize dependent (inject_Z (Qceiling (t / p))). intros k Hlo Hhi.
  generalize dependent (t / p)%Q. intros q Hq Hlo Hhi.
  split.
  - rewrite <- Hq. apply Qmult_lt_compat_r; [exact Hp | exact Hlo].
  - rewrite <- Hq. apply Qmult_le_compat_r; [exact Hhi | lra].
Qed.

Lemma ceiling_positive (t p : Q) :
  (0 < p)%Q -> (0 < t)%Q -> (1 <= Qceiling (t / p))%Z.
Proof.
  intros Hp Ht. destruct (ceiling_cover t p Hp) as [_ Hhi].
  assert (Hk : (0 < inject_Z (Qceiling (t / p)))%Q).
  { apply Qnot_le_lt. intros Hle.
    assert (inject_Z (Qceiling (t / p)) * p <= 0)%Q; [|lra].
    setoid_replace 0%Q with (0 * p)%Q by ring.
    apply Qmult_le_compat_r; lra. }
  change 0%Q with (inject_Z 0) in Hk. rewrite <- Zlt_Qlt in Hk. lia.
Qed.

(** The extracted extent of the tile number [c] along an axis of dividend
    [t] and step [p], when [c] is below the ceiling of [t / p]. *)
Lemma tile_extent (t p : Q) (c : nat) :
  (0 < p)%Q -> (Z.of_nat c < Qceiling (t / p))%Z ->
  (0 < Qmin p (t - inject_Z (Z.of_nat c) * p))%Q
  /\ (Qmin p (t - inject_Z (Z.of_nat c) * p) <= p)%Q
  /\ (Z.of_nat c = (Qceiling (t / p) - 1)%Z ->
      (Qmin p (t - inject_Z (Z.of_nat c) * p)
       == t - inject_Z (Qceiling (t / p) - 1) * p)%Q).
Proof.
  intros Hp Hc. destruct (ceiling_cover t p Hp) as [Hlo Hhi].
  set (k := Qceiling (t / p)) in *.
  assert (Hck : (inject_Z (Z.of_nat c) <= inject_Z k - 1)%Q).
  { rewrite <- inject_Z_pred, <- Zle_Qle. lia. }
  assert (Hcp : (inject_Z (Z.of_nat c) * p <= (inject_Z k - 1) * p)%Q)
    by (apply Qmult_le_compat_r; lra).
  split; [apply Q.min_glb_lt; lra|].
  split; [apply Q.le_min_l|].
  intros Heq. rewrite Heq. rewrite Q.min_r; [reflexivity|].
  rewrite inject_Z_pred. lra.
Qed.

Lemma geometry_size (cfg : PosterConfig.t Q) (paper : PaperSize.t Q) :
  PosterConfig.mode cfg = SIZE ->
  let g := geometry cfg paper in
  posterWidth g = PosterConfig.targetWidth cfg
  /\ posterHeight g = PosterConfig.targetHeight cfg
  /\ g_cols g = Qceiling (PosterConfig.targetWidth cfg / g_printW g)
  /\ g_rows g = Qceiling (PosterConfig.targetHeight cfg / g_printH g).
Proof.
  intros Hmode. unfold geometry. rewrite Hmode. cbn. repeat split; reflexivity.
Qed.

Lemma scale_positive (cfg : PosterConfig.t Q) (paper : PaperSize.t Q) :
  (0 < scale (geometry cfg paper))%Q.
Proof.
  unfold geometry. cbn. destruct (Unit_eqb (PosterConfig.unit cfg) INCH); reflexivity.
Qed.

(** A page whose tile has a positive size, on a browser that grants the
    tile context, carries the tile: copied from the canvas with the same
    source and destination size, and placed at the margin with its
    extracted physical size. *)
Lemma pageEvents_tile {N : Type} `{JsNumber N} (env : Browser)
    (cfg : PosterConfig.t N) (g : Geometry) (r c : nat) :
  ((lit 0 <? tileWidth g c * scale g) && (lit 0 <? tileHeight g r * scale g))%js
  = true ->
  tileContext env r c = true ->
  In (TileDrawImage (ofNat c * g_printW g * scale g)%js
                    (ofNat r * g_printH g * scale g)%js
                    (tileWidth g c * scale g)%js (tileHeight g r * scale g)%js
                    (lit 0) (lit 0)
                    (tileWidth g c * scale g)%js (tileHeight g r * scale g)%js)
     (pageEvents env cfg g r c)
  /\ In (AddImage (PosterConfig.margin cfg) (PosterConfig.margin cfg)
                  (tileWidth g c) (tileHeight g r))
        (pageEvents env cfg g r c).
Proof.
  intros Hpos Hctx. unfold pageEvents. fold (tileWidth g c) (tileHeight g r).
  rewrite Hpos, Hctx.
  split; apply in_or_app; right; apply in_or_app; left; cbn; auto.
Qed.

(** SIZE mode in exact arithmetic: with positive targets and printable
    dimensions, the page counts are the ceilings of target / printable; the
    tile of the last column has width
    targetWidth - (cols - 1) * printableWidth, which is > 0 and
    <= printableWidth; and on every row the page of the last column carries
    that tile with exactly this width, copied without scaling.  On binary64
    numbers the count can be one more, with an empty last column (see the
    evaluation below). *)
Theorem size_mode_last_column (env : Browser) (cfg : PosterConfig.t Q)
    (paper : PaperSize.t Q) (r : nat) :
  let g := geometry cfg paper in
  let last := Z.to_nat (g_cols g - 1) in
  PosterConfig.mode cfg = SIZE ->
  (0 < PosterConfig.targetWidth cfg)%Q -> (0 < PosterConfig.targetHeight cfg)%Q ->
  (0 < g_printW g)%Q -> (0 < g_printH g)%Q ->
  g_cols g = Qceiling (PosterConfig.targetWidth cfg / g_printW g)
  /\ g_rows g = Qceiling (PosterConfig.targetHeight cfg / g_printH g)
  /\ (1 <= g_cols g)%Z /\ (1 <= g_rows g)%Z
  /\ (tileWidth g last
      == PosterConfig.targetWidth cfg - inject_Z (g_cols g - 1) * g_printW g)%Q
  /\ (0 < tileWidth g last)%Q /\ (tileWidth g last <= g_printW g)%Q
  /\ ((r < Z.to_nat (g_rows g))%nat -> tileContext env r last = true ->
      In (TileDrawImage (ofNat last * g_printW g * scale g)%js
                        (ofNat r * g_printH g * scale g)%js
                        (tileWidth g last * scale g)%js
                        (tileHeight g r * scale g)%js 0 0
                        (tileWidth g last * scale g)%js
                        (tileHeight g r * scale g)%js)
         (pageEvents env cfg g r last)
      /\ In (AddImage (PosterConfig.margin cfg) (PosterConfig.margin cfg)
                      (tileWidth g last) (tileHeight g r))
            (pageEvents env cfg g r last)).
Proof.
  intros g last Hmode Htw Hth Hpw Hph.
  destruct (geometry_size cfg paper Hmode) as (Hw & Hh & Hcols & Hrows).
  fold g in Hw, Hh, Hcols, Hrows.
  pose proof (ceiling_positive _ _ Hpw Htw) as Hc1. rewrite <- Hcols in Hc1.
  pose proof (ceiling_positive _ _ Hph Hth) as Hr1. rewrite <- Hrows in Hr1.
  assert (Hlast : Z.of_nat last = (g_cols g - 1)%Z) by (unfold last; lia).
  assert (Htile := @tile_extent (PosterConfig.targetWidth cfg) (g_printW g) last Hpw).
  rewrite <- Hcols in Htile.
  destruct Htile as (Hpos & Hle & Heq); [lia|].
  assert (Hwidth : tileWidth g last
                   = Qmin (g_printW g)
                       (PosterConfig.targetWidth cfg
                        - inject_Z (Z.of_nat last) * g_printW g)%Q).
  { unfold tileWidth, ofNat. rewrite Hw. reflexivity. }
  split; [exact Hcols|]. split; [exact Hrows|].
  split; [exact Hc1|]. split; [exact Hr1|].
  split; [rewrite Hwidth; apply Heq, Hlast|].
  split; [rewrite Hwidth; exact Hpos|].
  split; [rewrite Hwidth; exact Hle|].
  intros Hr Hctx. refine (@pageEvents_tile Q _ env cfg g r last _ Hctx).
  assert (Hrow := @tile_extent (PosterConfig.targetHeight cfg) (g_printH g) r Hph).
  rewrite <- Hrows in Hrow. destruct Hrow as (Hrpos & _ & _); [lia|].
  assert (Hheight : tileHeight g r
                    = Qmin (g_printH g)
                        (PosterConfig.targetHeight cfg
                         - inject_Z (Z.of_nat r) * g_printH g)%Q).
  { unfold tileHeight, ofNat. rewrite Hh. reflexivity. }
  pose proof (scale_positive cfg paper) as Hs. fold g in Hs.
  js_unfold. apply andb_true_iff. split; apply Qltb_intro.
  - rewrite Hwidth. apply Qmult_lt_0_compat; assumption.
  - rewrite Hheight. apply Qmult_lt_0_compat; assumption.
Qed.

Lemma size_mode_last_column_witness :
  g_cols (geometry sizeConfig (selectedPaper sizeConfig)) = 5%Z
  /\ (tileWidth (geometry sizeConfig (selectedPaper sizeConfig)) 4 == 6)%Q.
Proof.
  pose proof (size_mode_last_column browser sizeConfig
                (selectedPaper sizeConfig) 0%nat
                eq_refl eq_refl eq_refl eq_refl eq_refl)
    as (Hcols & _ & _ & _ & Hwidth & _).
  split.
  - exact Hcols.
  - rewrite Hwidth. reflexivity.
Defined.

(** ** GRID mode *)

(** In exact arithmetic the exporter's page counts in GRID mode are the
    requested ones, as in the workspace, and every tile is a full one. *)
Lemma grid_layout_exact (cfg : PosterConfig.t Q) (paper : PaperSize.t Q)
    (k j : Z) (r c : nat) :
  let g := geometry cfg paper in
  PosterConfig.mode cfg = GRID ->
  PosterConfig.gridCols cfg = inject_Z k ->
  PosterConfig.gridRows cfg = inject_Z j ->
  (0 < g_printW g)%Q -> (0 < g_printH g)%Q ->
  posterWidth g = (inject_Z k * g_printW g)%Q
  /\ posterHeight g = (inject_Z j * g_printH g)%Q
  /\ g_cols g = k /\ g_rows g = j
  /\ cols (workspaceLayout cfg paper) = inject_Z k
  /\ rows (workspaceLayout cfg paper) = inject_Z j
  /\ ((Z.of_nat c < k)%Z -> (tileWidth g c == g_printW g)%Q)
  /\ ((Z.of_nat r < j)%Z -> (tileHeight g r == g_printH g)%Q).
Proof.
  intros g Hmode Hk Hj Hpw Hph.
  assert (Hw : posterWidth g = (inject_Z k * g_printW g)%Q).
  { unfold g, geometry. rewrite Hmode, Hk. reflexivity. }
  assert (Hh : posterHeight g = (inject_Z j * g_printH g)%Q).
  { unfold g, geometry. rewrite Hmode, Hj. reflexivity. }
  assert (Hcols : g_cols g = Qceiling (posterWidth g / g_printW g)) by reflexivity.
  assert (Hrows : g_rows g = Qceiling (posterHeight g / g_printH g)) by reflexivity.
  split; [exact Hw|]. split; [exact Hh|].
  split.
  { rewrite Hcols, Hw. transitivity (Qceiling (inject_Z k)); [|apply Qceiling_Z].
    apply Qceiling_comp. field. lra. }
  split.
  { rewrite Hrows, Hh. transitivity (Qceiling (inject_Z j)); [|apply Qceiling_Z].
    apply Qceiling_comp. field. lra. }
  split; [unfold workspaceLayout; rewrite Hmode; cbn; exact Hk|].
  split; [unfold workspaceLayout; rewrite Hmode; cbn; exact Hj|].
  split.
  - intros Hc. unfold tileWidth, ofNat. js_unfold. rewrite Hw.
    apply Q.min_l.
    assert (Hck : (inject_Z (Z.of_nat c) <= inject_Z k - 1)%Q).
    { rewrite <- inject_Z_pred, <- Zle_Qle. lia. }
    assert ((inject_Z (Z.of_nat c)) * g_printW g <= (inject_Z k - 1) * g_printW g)%Q
      by (apply Qmult_le_compat_r; lra).
    lra.
  - intros Hr. unfold tileHeight, ofNat. js_unfold. rewrite Hh.
    apply Q.min_l.
    assert (Hrk : (inject_Z (Z.of_nat r) <= inject_Z j - 1)%Q).
    { rewrite <- inject_Z_pred, <- Zle_Qle. lia. }
    assert ((inject_Z (Z.of_nat r)) * g_printH g <= (inject_Z j - 1) * g_printH g)%Q
      by (apply Qmult_le_compat_r; lra).
    lra.
Qed.

(** On binary64 numbers the initial configuration (margin 0.5 in) exports
    its 3 x 3 pages, and the 36 in poster of SIZE mode has 5 columns with a
    last tile of 6 in. *)
Example grid_initial_binary64 :
  g_cols (geometry (N := float) initialConfig (selectedPaper initialConfig)) = 3%Z
  /\ g_rows (geometry (N := float) initialConfig (selectedPaper initialConfig)) = 3%Z
  /\ List.length
       (filter isAddPage
          (fst (generateTiledPDF (N := float) browser initialConfig []
                  (selectedPaper initialConfig))))
     = 9%nat.
Proof. repeat split; vm_compute; reflexivity. Qed.

Example size_scenario_binary64 :
  g_cols (geometry (N := float) (withMode SIZE initialConfig)
            (selectedPaper initialConfig)) = 5%Z
  /\ tileWidth (geometry (N := float) (withMode SIZE initialConfig)
                  (selectedPaper initialConfig)) 4 = 6%float.
Proof. repeat split; vm_compute; reflexivity. Qed.

(** C1, on binary64 numbers: in GRID mode with 3 x 3 sheets of Letter paper
    and a margin of 0.3 in, both printable dimensions are positive and the
    workspace shows 3 columns, but the exporter derives 4: the product
    3 * printW divided by printW again is 3.0000000000000004, and its
    ceiling is 4.  The export has 12 pages, not 9; the fourth page of each
    row has a tile of width 0 and carries no image. *)
Theorem grid_export_extra_column :
  PosterConfig.mode narrowMarginConfig = GRID
  /\ PosterConfig.gridCols narrowMarginConfig = 3%float
  /\ PosterConfig.gridRows narrowMarginConfig = 3%float
  /\ g_printW narrowMarginGeometry = 7.9000000000000004%float
  /\ g_printH narrowMarginGeometry = 10.4%float
  /\ cols (workspaceLayout narrowMarginConfig narrowMarginPaper) = 3%float
  /\ rows (workspaceLayout narrowMarginConfig narrowMarginPaper) = 3%float
  /\ (posterWidth narrowMarginGeometry / g_printW narrowMarginGeometry)%float
     = 3.0000000000000004%float
  /\ g_cols narrowMarginGeometry = 4%Z
  /\ g_rows narrowMarginGeometry = 3%Z
  /\ List.length
       (filter isAddPage
          (fst (generateTiledPDF browser narrowMarginConfig [] narrowMarginPaper)))
     = 12%nat
  /\ tileWidth narrowMarginGeometry 3 = 0%float
  /\ filter isAddImage (pageEvents browser narrowMarginConfig narrowMarginGeometry 0 3)
     = []
  /\ filter isPageOrLabel
       (pageEvents browser narrowMarginConfig narrowMarginGeometry 0 3)
     = [ AddPage 8.5%float 11%float "p";
         DocText "Page 1-4 (Row 1, Col 4)" 0.2%float 10.8%float ].
Proof.
  repeat split; vm_compute; reflexivity.
Qed.

(** C2, on binary64 numbers: in SIZE mode on A4 paper with the margin of
    12.7 mm and a target width of 1292.2 mm, seven printable widths, all
    four dimensions of the claim are positive, but the quotient
    targetWidth / printW is 7.0000000000000009 and its ceiling is 8, while
    7 * printW rounds to the target width.  The tile of the last column
    has width targetWidth - (cols - 1) * printW = 0, not > 0: the export
    has 40 pages of which only 35 carry an image, and the eighth page of
    each row has no image, a cut rectangle of width 0 and its label.  In
    exact arithmetic the same configuration gives 7 columns, the last one
    a full tile. *)
Theorem size_export_empty_last_column :
  PosterConfig.mode (sevenWidthsConfig (N := float)) = SIZE
  /\ PosterConfig.margin (sevenWidthsConfig (N := float))
     = PosterConfig.margin (toggleUnitConfig (N := float) initialConfig)
  /\ (lit 0 <? PosterConfig.targetWidth (sevenWidthsConfig (N := float)))%js = true
  /\ (lit 0 <? PosterConfig.targetHeight (sevenWidthsConfig (N := float)))%js = true
  /\ (lit 0 <? g_printW (sevenWidthsGeometry (N := float)))%js = true
  /\ (lit 0 <? g_printH (sevenWidthsGeometry (N := float)))%js = true
  /\ PosterConfig.targetWidth (sevenWidthsConfig (N := float)) = 1292.2%float
  /\ g_printW (sevenWidthsGeometry (N := float)) = 184.59999999999999%float
  /\ (PosterConfig.targetWidth sevenWidthsConfig
      / g_printW (sevenWidthsGeometry (N := float)))%js
     = 7.0000000000000009%float
  /\ g_cols (sevenWidthsGeometry (N := float)) = 8%Z
  /\ g_rows (sevenWidthsGeometry (N := float)) = 5%Z
  /\ (of_Z 7 * g_printW (sevenWidthsGeometry (N := float)))%js = 1292.2%float
  /\ (PosterConfig.targetWidth sevenWidthsConfig
      - of_Z (g_cols (sevenWidthsGeometry (N := float)) - 1)
        * g_printW (sevenWidthsGeometry (N := float)))%js
     = 0%float
  /\ tileWidth (sevenWidthsGeometry (N := float)) 7 = 0%float
  /\ (lit 0 <? tileWidth (sevenWidthsGeometry (N := float)) 7)%js = false
  /\ List.length
       (filter isAddPage
          (fst (generateTiledPDF (N := float) browser sevenWidthsConfig []
                  sevenWidthsPaper)))
     = 40%nat
  /\ List.length
       (filter isAddImage
          (fst (generateTiledPDF (N := float) browser sevenWidthsConfig []
                  sevenWidthsPaper)))
     = 35%nat
  /\ filter isAddImage
       (pageEvents (N := float) browser sevenWidthsConfig sevenWidthsGeometry 0 7)
     = []
  /\ filter isDocRect
       (pageEvents (N := float) browser sevenWidthsConfig sevenWidthsGeometry 0 7)
     = [ DocRect 12.699999999999999%float 12.699999999999999%float
           0%float 271.60000000000002%float ]
  /\ filter isPageOrLabel
       (pageEvents (N := float) browser sevenWidthsConfig sevenWidthsGeometry 0 7)
     = [ AddPage 210%float 297%float "p";
         DocText "Page 1-8 (Row 1, Col 8)" 5%float 292%float ]
  /\ g_cols (sevenWidthsGeometry (N := Q)) = 7%Z
  /\ (tileWidth (sevenWidthsGeometry (N := Q)) 6 == 1846 # 10)%Q.
Proof.
  repeat split; vm_compute; reflexivity.
Qed.

(** ** Text layers *)

Lemma splitLines_nonempty (s : string) : splitLines s <> [].
Proof.
  destruct s as [|c s]; cbn; [discriminate|].
  destruct (Ascii.eqb c "010"%char); [discriminate|].
  destruct (splitLines s); discriminate.
Qed.

Lemma joinLines_cons (c : ascii) (l : string) (ls : list string) :
  joinLines (String c l :: ls) = String c (joinLines (l :: ls)).
Proof. destruct ls; reflexivity. Qed.

(** The lines are exactly the content cut at its line breaks. *)
Lemma joinLines_splitLines (s : string) : joinLines (splitLines s) = s.
Proof.
  induction s as [|c s IH]; [reflexivity|].
  cbn [splitLines]. destruct (Ascii.eqb c "010"%char) eqn:Hc.
  - apply Ascii.eqb_eq in Hc. subst c.
    pose proof (splitLines_nonempty s) as Hne.
    destruct (splitLines s) as [|l ls]; [congruence|].
    cbn [joinLines] in *. rewrite IH. reflexivity.
  - pose proof (splitLines_nonempty s) as Hne.
    destruct (splitLines s) as [|l ls]; [congruence|].
    rewrite joinLines_cons, IH. reflexivity.
Qed.

Lemma drawnLines_app (a b : list (Event Q)) :
  drawnLines (a ++ b) = drawnLines a ++ drawnLines b.
Proof. apply flat_map_app. Qed.

Lemma drawnLines_forEach (lx : Q) (yOf : nat -> Q) (lines : list string) :
  forall k,
  drawnLines (forEachIndexed (fun line i => [CtxFillText line lx (yOf i)]) k lines)
  = map (fun il => (snd il, lx, yOf (fst il)))
        (combine (seq k (List.length lines)) lines).
Proof.
  induction lines as [|l lines IH]; intros k; [reflexivity|].
  cbn [forEachIndexed List.length seq combine map].
  rewrite drawnLines_app, IH. reflexivity.
Qed.

Lemma drawLayer_text_lines (cw ch : Z) (l : Layer.t Q) :
  Layer.type l = text ->
  drawnLines (drawLayer cw ch l)
  = map (fun il =>
           (snd il, Layer.x l * inject_Z cw,
            Layer.y l * inject_Z ch
            + inject_Z (Z.of_nat (fst il))
              * (inject_Z ch * (5 # 100)
                 * orNumber (optChain (@Style.fontSize Q) (Layer.style l)) 1)
              * (12 # 10)))%Q
        (combine (seq 0 (List.length (splitLines (Layer.content l))))
                 (splitLines (Layer.content l))).
Proof.
  intros Ht. unfold drawLayer. rewrite Ht.
  rewrite !drawnLines_app.
  rewrite (drawnLines_forEach _ _ (splitLines (Layer.content l)) 0).
  change (drawnLines [CtxRestore]) with (@nil (string * Q * Q)).
  rewrite app_nil_r. reflexivity.
Qed.

Lemma orNumber_effective (l : Layer.t Q) :
  orNumber (optChain (@Style.fontSize Q) (Layer.style l)) 1%Q
  = effectiveMultiplier l.
Proof.
  unfold orNumber, effectiveMultiplier.
  destruct (optChain (@Style.fontSize Q) (Layer.style l)) as [m|]; [|reflexivity].
  cbn. destruct (Qeq_bool m 0); reflexivity.
Qed.

(** C8, as amended: a text layer is drawn at font size
    0.05 * surfaceHeight * multiplier, where the multiplier is the layer's
    font-size multiplier, or 1 when that is absent or zero; the baseline is
    "top"; the lines drawn are the content cut at its line breaks and
    nothing else (no word-wrap); line number i is drawn 1.2 * fontSize * i
    below the layer's top.  On a surface of height 1000 px with multiplier
    1 the font size is 50 px and the second line is 60 px below the
    first. *)
Theorem text_layer_font_and_lines (cw ch : Z) (l : Layer.t Q) :
  Layer.type l = text ->
  exists px : Q,
    drawnFontSize (drawLayer cw ch l) = Some px
    /\ (px == (5 # 100) * inject_Z ch * effectiveMultiplier l)%Q
    /\ In (CtxTextBaseline "top") (drawLayer cw ch l)
    /\ map (fun t => fst (fst t)) (drawnLines (drawLayer cw ch l))
       = splitLines (Layer.content l)
    /\ joinLines (splitLines (Layer.content l)) = Layer.content l
    /\ (forall i line x y,
          nth_error (drawnLines (drawLayer cw ch l)) i = Some (line, x, y) ->
          x = (Layer.x l * inject_Z cw)%Q
          /\ (y == Layer.y l * inject_Z ch
                   + inject_Z (Z.of_nat i) * ((12 # 10) * px))%Q)
    /\ (ch = 1000%Z -> (effectiveMultiplier l == 1)%Q ->
        (px == 50)%Q /\ ((12 # 10) * px == 60)%Q).
Proof.
  intros Ht.
  exists (inject_Z ch * (5 # 100) * effectiveMultiplier l)%Q.
  split.
  { unfold drawLayer. rewrite Ht, orNumber_effective. reflexivity. }
  split; [ring|].
  split.
  { unfold drawLayer. rewrite Ht. cbn. auto 10. }
  pose proof (drawLayer_text_lines cw ch l Ht) as Hlines.
  rewrite orNumber_effective in Hlines.
  split.
  { rewrite Hlines, map_map. cbn [fst snd].
    rewrite <- (map_map snd (fun x => x)), map_id.
    clear Hlines. generalize 0%nat.
    induction (splitLines (Layer.content l)) as [|a ls IH]; intros k;
      [reflexivity|]. cbn. rewrite IH. reflexivity. }
  split; [apply joinLines_splitLines|].
  split.
  { intros i line x y Hnth. rewrite Hlines in Hnth.
    rewrite nth_error_map in Hnth.
    destruct (nth_error (combine _ _) i) as [[k s]|] eqn:Hc; [|discriminate].
    cbn in Hnth. injection Hnth as Hline Hx Hy.
    assert (Hk : k = i).
    { clear - Hc. revert Hc. generalize (splitLines (Layer.content l)).
      intros ls. replace i with (0 + i)%nat at 2 by reflexivity.
      generalize 0%nat. revert i.
      induction ls as [|a ls IH]; intros i n Hc.
      - cbn in Hc. destruct i; discriminate.
      - destruct i as [|i]; cbn in Hc.
        + injection Hc as Hk _. lia.
        + apply IH in Hc. lia. }
    subst k. split; [symmetry; exact Hx|]. rewrite <- Hy. ring. }
  intros Hch Hm. subst ch. rewrite Hm. split; reflexivity.
Qed.

Lemma text_layer_font_and_lines_witness :
  exists px : Q,
    drawnFontSize (drawLayer 800 1000 unitSizeText) = Some px /\ (px == 50)%Q.
Proof.
  destruct (text_layer_font_and_lines 800 1000 unitSizeText eq_refl)
    as (px & Hpx & _ & _ & _ & _ & _ & Hscenario).
  exists px. split; [exact Hpx|].
  apply Hscenario; reflexivity.
Defined.

(** C8, as stated, fails: a text layer whose size field is 0 is drawn at
    multiplier 1 (50 px on a surface of height 1000 px), not at
    0.05 * 1000 * 0. *)
Lemma text_layer_font_counterexample :
  Layer.type zeroSizeText = text
  /\ (statedMultiplier zeroSizeText == 0)%Q
  /\ exists px : Q,
       drawnFontSize (drawLayer 800 1000 zeroSizeText) = Some px
       /\ (px == 50)%Q
       /\ ~ (px == (5 # 100) * inject_Z 1000 * statedMultiplier zeroSizeText)%Q.
Proof.
  split; [reflexivity|]. split; [reflexivity|].
  eexists. split; [reflexivity|]. split; [reflexivity|].
  intros Heq. vm_compute in Heq. discriminate.
Qed.

(** ** Cut guides *)

Lemma Qle_bool_refl (a : Q) : Qle_bool a a = true.
Proof. apply Qle_bool_iff. apply Qle_refl. Qed.

Lemma between_lower (a b : Q) : (a <= b)%Q -> between a b a = true.
Proof.
  intros Hle. unfold between. rewrite Qle_bool_refl.
  apply Qle_bool_iff in Hle. rewrite Hle. reflexivity.
Qed.

Lemma between_inner (a b p : Q) : (a <= p)%Q -> (p <= b)%Q -> between a b p = true.
Proof.
  intros Hl Hr. unfold between.
  apply Qle_bool_iff in Hl, Hr. rewrite Hl, Hr. reflexivity.
Qed.

(** C9, as amended: on every page with cut lines enabled and a style other
    than 'none', the tiler draws, in this order, a rectangle outline at the
    margin inset around the extracted tile (the printable area when the
    tile is a full one), dashed when the style is 'dashed' and solid
    otherwise, and then exactly four solid lines that form two scissor
    marks, one at the top-left and one at the bottom-right corner of that
    rectangle, each a horizontal and a vertical line through the corner
    that extends by the mark offset outside it; mark length and offset are
    5 and 2 in millimeter mode, 0.2 and 0.08 in inch mode. *)
Theorem cut_guides_two_corner_marks (env : Browser) (cfg : PosterConfig.t Q)
    (paper : PaperSize.t Q) (r c : nat) :
  let g := geometry cfg paper in
  let m := PosterConfig.margin cfg in
  let w := tileWidth g c in
  let h := tileHeight g r in
  let off : Q := if isInch g then 8 # 100 else 2 in
  let len : Q := if isInch g then 2 # 10 else 5 in
  PosterConfig.showCutLines cfg = true ->
  PosterConfig.cutLineStyle cfg <> none ->
  (exists before after,
      pageEvents env cfg g r c = before ++ cutGuides cfg (isInch g) w h ++ after
      /\ filter isDocLine before = [] /\ filter isDocRect before = []
      /\ filter isDocLine after = [] /\ filter isDocRect after = [])
  /\ filter isDocRect (pageEvents env cfg g r c) = [DocRect m m w h]
  /\ filter isDocLine (pageEvents env cfg g r c)
     = [ DocLine (m - off) m (m + len) m;
         DocLine m (m - off) m (m + len);
         DocLine (m + w - len) (m + h) (m + w + off) (m + h);
         DocLine (m + w) (m + h - len) (m + w) (m + h + off) ]%Q
  /\ (0 < off)%Q /\ (0 < len)%Q
  /\ existsb (lineThrough (m, m)) (pageEvents env cfg g r c) = true
  /\ existsb (lineThrough (m + w, m + h)%Q) (pageEvents env cfg g r c) = true.
Proof.
  intros g m w h off len Hshow Hstyle.
  assert (Hpage : exists before after,
             pageEvents env cfg g r c
             = before ++ cutGuides cfg (isInch g) w h ++ after
             /\ filter isDocLine before = [] /\ filter isDocRect before = []
             /\ filter isDocLine after = [] /\ filter isDocRect after = []).
  { unfold pageEvents. fold (tileWidth g c) (tileHeight g r). fold w h m.
    rewrite Hshow. cbn [andb].
    destruct (PosterConfig.cutLineStyle cfg) eqn:Hs; [| |congruence];
      (eexists; eexists; split;
       [ rewrite app_assoc; f_equal; unfold cutGuides; rewrite Hs; reflexivity
       | repeat match goal with
                | |- context [if ?b then _ else _] => destruct b
                end; repeat split; reflexivity ]). }
  split; [exact Hpage|].
  destruct Hpage as (before & after & Hpage & Hb1 & Hb2 & Ha1 & Ha2).
  split.
  { rewrite Hpage, !filter_app, Hb2, Ha2. unfold cutGuides.
    cbn [filter isDocRect app]. reflexivity. }
  split.
  { rewrite Hpage, !filter_app, Hb1, Ha1. unfold cutGuides.
    cbn [filter isDocLine app]. reflexivity. }
  assert (Hoff : (0 < off)%Q) by (unfold off; destruct (isInch g); reflexivity).
  assert (Hlen : (0 < len)%Q) by (unfold len; destruct (isInch g); reflexivity).
  split; [exact Hoff|]. split; [exact Hlen|].
  split.
  - rewrite Hpage, !existsb_app. unfold cutGuides. fold off len m.
    cbn [existsb lineThrough fst snd].
    rewrite (between_inner (m - off) (m + len) m), (between_lower m m) by lra.
    cbn. rewrite !orb_true_r. reflexivity.
  - rewrite Hpage, !existsb_app. unfold cutGuides. fold off len m.
    cbn [existsb lineThrough fst snd].
    rewrite (between_inner (m + w - len) (m + w + off) (m + w)),
            (between_lower (m + h) (m + h)) by lra.
    cbn. rewrite !orb_true_r. reflexivity.
Qed.

Lemma cut_guides_two_corner_marks_witness :
  filter isDocRect
    (pageEvents browser sizeConfig
       (geometry sizeConfig (selectedPaper sizeConfig)) 0 4)
  = [ DocRect (PosterConfig.margin sizeConfig) (PosterConfig.margin sizeConfig)
        (tileWidth (geometry sizeConfig (selectedPaper sizeConfig)) 4)
        (tileHeight (geometry sizeConfig (selectedPaper sizeConfig)) 0) ].
Proof.
  refine (proj1 (proj2
    (cut_guides_two_corner_marks browser sizeConfig (selectedPaper sizeConfig)
       0 4 eq_refl _))).
  discriminate.
Defined.

(** C9, as stated, fails.  On the first page of the initial configuration
    (cut lines on, dashed) no mark passes through the top-right or the
    bottom-left corner of the printable rectangle: the four lines are at the
    top-left and the bottom-right corner only.  And on a page of the last
    column in SIZE mode the rectangle is 6 in wide, around the partial tile,
    not the 7.5 in of the printable area. *)
Lemma cut_guides_counterexample :
  PosterConfig.showCutLines (initialConfig (N := Q)) = true
  /\ PosterConfig.cutLineStyle (initialConfig (N := Q)) = dashed
  /\ printableCorners initialConfig (geometry initialConfig (selectedPaper initialConfig))
     = [ (5 # 10, 5 # 10); ((5 # 10) + (190500 # 25400), 5 # 10);
         (5 # 10, (5 # 10) + (254000 # 25400));
         ((5 # 10) + (190500 # 25400), (5 # 10) + (254000 # 25400)) ]%Q
  /\ map (fun p => existsb (lineThrough p)
                     (pageEvents browser initialConfig
                        (geometry initialConfig (selectedPaper initialConfig)) 0 0))
         (printableCorners initialConfig
            (geometry initialConfig (selectedPaper initialConfig)))
     = [true; false; false; true]
  /\ cornersMarked
       (pageEvents browser initialConfig
          (geometry initialConfig (selectedPaper initialConfig)) 0 0)
       (printableCorners initialConfig
          (geometry initialConfig (selectedPaper initialConfig)))
     = false
  /\ (g_printW (geometry sizeConfig (selectedPaper sizeConfig)) == 75 # 10)%Q
  /\ map (fun e => match e with
                   | DocRect _ _ w _ => Qeq_bool w 6
                   | _ => false
                   end)
         (filter isDocRect
            (pageEvents browser sizeConfig
               (geometry sizeConfig (selectedPaper sizeConfig)) 0 4))
     = [true].
Proof.
  repeat split; vm_compute; reflexivity.
Qed.

(** * Further properties of the code *)

(** ** Layers of the session *)

Section SessionFacts.
Context {N : Type} `{JsNumber N}.

Lemma find_by_id_In (i : string) (ls : list (Layer.t N)) (l : Layer.t N) :
  find (fun l' => String.eqb (Layer.id l') i) ls = Some l ->
  In l ls /\ Layer.id l = i.
Proof.
  intros Hf. apply find_some in Hf. destruct Hf as [Hin Heq].
  apply String.eqb_eq in Heq. split; assumption.
Qed.

Lemma filter_other_ids_id (i : string) (ls : list (Layer.t N)) :
  (forall l, In l ls -> Layer.id l <> i) ->
  filter (fun l => negb (String.eqb (Layer.id l) i)) ls = ls.
Proof.
  induction ls as [|a ls IH]; intros Hall; [reflexivity|].
  cbn [filter].
  destruct (String.eqb (Layer.id a) i) eqn:Ha.
  - apply String.eqb_eq in Ha. exfalso. apply (Hall a); [left; reflexivity|exact Ha].
  - cbn [negb]. f_equal. apply IH. intros l Hl. apply Hall. right. exact Hl.
Qed.

(** [removeLayer] deletes exactly the layers of that id: every other layer
    stays, in its place in the paint order; the selection is dropped when it
    named the removed id and kept otherwise; the layer shown in the controls
    afterwards is never a removed one; and removing an id that no layer has
    leaves the layers as they were. *)
Theorem removeLayer_removes_only_that_id (i : string) (st : Session (N := N)) :
  (forall l, In l (s_layers (removeLayer i st))
             <-> In l (s_layers st) /\ Layer.id l <> i)
  /\ (exists dropped,
        List.length (s_layers st)
        = (List.length (s_layers (removeLayer i st)) + dropped)%nat)
  /\ (forall a b before between after,
        s_layers st = before ++ a :: between ++ b :: after ->
        Layer.id a <> i -> Layer.id b <> i ->
        exists before' between' after',
          s_layers (removeLayer i st) = before' ++ a :: between' ++ b :: after')
  /\ (s_selectedLayerId st = Some i -> s_selectedLayerId (removeLayer i st) = None)
  /\ (s_selectedLayerId st <> Some i ->
      s_selectedLayerId (removeLayer i st) = s_selectedLayerId st)
  /\ (forall l, selectedLayer (removeLayer i st) = Some l -> Layer.id l <> i)
  /\ ((forall l, In l (s_layers st) -> Layer.id l <> i) ->
      s_layers (removeLayer i st) = s_layers st).
Proof.
  split.
  { intros l. cbn [removeLayer s_layers]. rewrite filter_In.
    split; intros [Hin Hid]; (split; [exact Hin|]).
    - intros Heq. apply String.eqb_eq in Heq. rewrite Heq in Hid. discriminate.
    - destruct (String.eqb (Layer.id l) i) eqn:Hb; [|reflexivity].
      apply String.eqb_eq in Hb. contradiction. }
  split.
  { cbn [removeLayer s_layers].
    exists (List.length (filter (fun l => String.eqb (Layer.id l) i) (s_layers st))).
    induction (s_layers st) as [|a ls IH]; [reflexivity|].
    cbn [filter List.length]. destruct (String.eqb (Layer.id a) i); cbn [negb List.length]; lia. }
  split.
  { intros a b before between after Hl Ha Hb. cbn [removeLayer s_layers].
    rewrite Hl. rewrite filter_app. cbn [filter].
    apply String.eqb_neq in Ha, Hb. rewrite Ha. cbn [negb].
    rewrite filter_app. cbn [filter]. rewrite Hb. cbn [negb].
    do 3 eexists. reflexivity. }
  split.
  { intros Hs. cbn [removeLayer s_selectedLayerId]. rewrite Hs, String.eqb_refl. reflexivity. }
  split.
  { intros Hs. cbn [removeLayer s_selectedLayerId].
    destruct (s_selectedLayerId st) as [sel|]; [|reflexivity].
    destruct (String.eqb sel i) eqn:Hb; [|reflexivity].
    apply String.eqb_eq in Hb. subst sel. contradiction. }
  split.
  { intros l. unfold selectedLayer. cbn [removeLayer s_selectedLayerId s_layers].
    destruct (s_selectedLayerId st) as [sel|]; [|discriminate].
    destruct (String.eqb sel i) eqn:Hb; [discriminate|].
    intros Hf. apply find_by_id_In in Hf. destruct Hf as [_ Hid].
    rewrite Hid. apply String.eqb_neq. exact Hb. }
  intros Hall. cbn [removeLayer s_layers]. apply filter_other_ids_id, Hall.
Qed.

(** A layer added under an id that no layer has yet is the last of the
    paint order (drawn on top), is the layer the controls then show, and
    removing it again gives back the layers there were. *)
Theorem add_then_remove_layer (uuid : string) (type : LayerType)
    (content : string) (st : Session (N := N)) :
  (forall l, In l (s_layers st) -> Layer.id l <> uuid) ->
  s_layers (handleAddLayer uuid type content st)
  = s_layers st ++ [newLayer uuid type content]
  /\ selectedLayer (handleAddLayer uuid type content st)
     = Some (newLayer uuid type content)
  /\ s_layers (removeLayer uuid (handleAddLayer uuid type content st))
     = s_layers st
  /\ s_selectedLayerId (removeLayer uuid (handleAddLayer uuid type content st))
     = None.
Proof.
  intros Hfresh. split; [reflexivity|]. split.
  { unfold selectedLayer. cbn [handleAddLayer s_selectedLayerId s_layers].
    induction (s_layers st) as [|a ls IH].
    - cbn. rewrite String.eqb_refl. reflexivity.
    - cbn [app find]. destruct (String.eqb (Layer.id a) uuid) eqn:Ha.
      + apply String.eqb_eq in Ha. exfalso.
        apply (Hfresh a); [left; reflexivity|exact Ha].
      + apply IH. intros l Hl. apply Hfresh. right. exact Hl. }
  split.
  { cbn [removeLayer handleAddLayer s_layers]. rewrite filter_app.
    cbn [filter newLayer Layer.id]. rewrite String.eqb_refl. cbn [negb].
    rewrite app_nil_r. apply filter_other_ids_id, Hfresh. }
  cbn [removeLayer handleAddLayer s_selectedLayerId].
  rewrite String.eqb_refl. reflexivity.
Qed.

Lemma updateLayer_ids (i : string) (u : LayerUpdate) (ls : list (Layer.t N)) :
  map (@Layer.id N) (updateLayer i u ls) = map (@Layer.id N) ls.
Proof.
  unfold updateLayer. rewrite map_map. apply map_ext. intros l.
  destruct (String.eqb (Layer.id l) i); reflexivity.
Qed.

Lemma listed_by_ids (sel : string) (ls ls' : list (Layer.t N)) :
  map (@Layer.id N) ls' = map (@Layer.id N) ls ->
  (exists l, In l ls /\ Layer.id l = sel) ->
  exists l, In l ls' /\ Layer.id l = sel.
Proof.
  intros Hids (l & Hin & Hid).
  assert (Hsel : In sel (map (@Layer.id N) ls')).
  { rewrite Hids, <- Hid. apply in_map, Hin. }
  apply in_map_iff in Hsel. destruct Hsel as (l' & Hid' & Hin').
  exists l'. split; assumption.
Qed.

Lemma act_keeps_selection_listed (st : Session (N := N)) (a : Action N) :
  selectionListed st -> selectionListed (act st a).
Proof.
  unfold selectionListed. intros Hinv. destruct a as [uuid t c|i|i| |i u| |]; cbn [act].
  - cbn [handleAddLayer s_selectedLayerId s_layers].
    exists (newLayer uuid t c). split; [|reflexivity].
    apply in_or_app. right. left. reflexivity.
  - cbn [removeLayer s_selectedLayerId s_layers].
    destruct (s_selectedLayerId st) as [sel|]; [|exact I].
    destruct (String.eqb sel i) eqn:Hb; [exact I|].
    destruct Hinv as (l & Hin & Hid). exists l. split; [|exact Hid].
    apply filter_In. split; [exact Hin|]. rewrite Hid, Hb. reflexivity.
  - destruct (existsb _ _) eqn:Hex; [|exact Hinv].
    cbn [selectLayer s_selectedLayerId s_layers].
    apply existsb_exists in Hex. destruct Hex as (l & Hin & Heq).
    apply String.eqb_eq in Heq. exists l. split; assumption.
  - exact I.
  - cbn [sessionUpdateLayer s_selectedLayerId s_layers].
    destruct (s_selectedLayerId st) as [sel|]; [|exact I].
    apply (listed_by_ids sel (s_layers st)); [apply updateLayer_ids|exact Hinv].
  - exact Hinv.
  - exact Hinv.
Qed.

(** Whatever is done in a session (adding, removing, selecting from the
    list, deselecting, updating, zooming), the selection is empty or names
    a layer that exists: the layer controls are never left with a selected
    id and no layer to show. *)
Theorem selection_always_listed (actions : list (Action N)) :
  let st := fold_left act actions initialSession in
  selectionListed st
  /\ (s_selectedLayerId st <> None -> selectedLayer st <> None).
Proof.
  intros st.
  assert (Hinv : selectionListed st).
  { subst st. generalize (initialSession (N := N)) (I : selectionListed (initialSession (N := N))).
    induction actions as [|a actions IH]; intros s Hs; [exact Hs|].
    cbn [fold_left]. apply IH, act_keeps_selection_listed, Hs. }
  split; [exact Hinv|].
  unfold selectionListed, selectedLayer in *.
  destruct (s_selectedLayerId st) as [sel|]; [|congruence].
  intros _ Hnone. destruct Hinv as (l & Hin & Hid).
  apply (find_none _ _ Hnone l) in Hin. rewrite Hid, String.eqb_refl in Hin.
  discriminate.
Qed.

End SessionFacts.

Lemma add_then_remove_layer_witness :
  s_layers (removeLayer "layer-3"
              (handleAddLayer "layer-3" image "data:image/png" twoLayerSession))
  = s_layers twoLayerSession.
Proof.
  refine (proj1 (proj2 (proj2
    (add_then_remove_layer "layer-3" image "data:image/png" twoLayerSession _)))).
  intros l [Hl|[Hl|[]]]; subst l; discriminate.
Defined.

(** ** Zoom *)

Lemma zoomOutValue_range (z : Q) :
  (1 # 10 <= z)%Q -> (z <= 2)%Q ->
  (1 # 10 <= zoomOutValue z)%Q /\ (zoomOutValue z <= 2)%Q.
Proof.
  intros Hlo Hhi. unfold zoomOutValue. js_unfold. split.
  - apply Q.le_max_l.
  - apply Q.max_lub; lra.
Qed.

Lemma zoomInValue_range (z : Q) :
  (1 # 10 <= z)%Q -> (z <= 2)%Q ->
  (1 # 10 <= zoomInValue z)%Q /\ (zoomInValue z <= 2)%Q.
Proof.
  intros Hlo Hhi. unfold zoomInValue. js_unfold. split.
  - apply Q.min_glb; lra.
  - apply Q.le_min_l.
Qed.

Lemma act_keeps_zoom_range (st : Session (N := Q)) (a : Action Q) :
  (1 # 10 <= s_zoom st)%Q /\ (s_zoom st <= 2)%Q ->
  (1 # 10 <= s_zoom (act st a))%Q /\ (s_zoom (act st a) <= 2)%Q.
Proof.
  intros [Hlo Hhi]. destruct a as [uuid t c|i|i| |i u| |]; cbn [act].
  - split; assumption.
  - split; assumption.
  - destruct (existsb _ _); split; assumption.
  - split; assumption.
  - split; assumption.
  - apply zoomInValue_range; assumption.
  - apply zoomOutValue_range; assumption.
Qed.

(** In exact arithmetic the zoom factor of a session stays between 0.1 and
    2 whatever buttons are pressed, so it is never zero when the pointer
    handlers divide by it; at the bounds the buttons have no further
    effect. *)
Theorem zoom_stays_in_range (actions : list (Action Q)) :
  let zoom := s_zoom (fold_left act actions initialSession) in
  (1 # 10 <= zoom)%Q /\ (zoom <= 2)%Q /\ ~ (zoom == 0)%Q
  /\ (zoomOutValue (1 # 10) == 1 # 10)%Q /\ (zoomInValue 2 == 2)%Q.
Proof.
  intros zoom.
  assert (Hr : (1 # 10 <= zoom)%Q /\ (zoom <= 2)%Q).
  { subst zoom.
    assert (H0 : (1 # 10 <= s_zoom (initialSession (N := Q)))%Q
                 /\ (s_zoom (initialSession (N := Q)) <= 2)%Q)
      by (split; vm_compute; discriminate).
    revert H0. generalize (initialSession (N := Q)).
    induction actions as [|a actions IH]; intros s Hs; [exact Hs|].
    cbn [fold_left]. apply IH, act_keeps_zoom_range, Hs. }
  destruct Hr as [Hlo Hhi].
  split; [exact Hlo|]. split; [exact Hhi|].
  clearbody zoom. split; [intros Hz; lra|].
  split; reflexivity.
Qed.

(** ** Gestures: what they leave alone *)

Section GestureFrame.
Context {N : Type} `{JsNumber N}.
Variables zoom visualW visualH : N.

Lemma mergeLayer_frame (l : Layer.t N) (u : LayerUpdate) :
  layerFrame (mergeLayer l u) = layerFrame l.
Proof. reflexivity. Qed.

Lemma updateLayer_frame (i : string) (u : LayerUpdate) (ls : list (Layer.t N)) :
  map layerFrame (updateLayer i u ls) = map layerFrame ls.
Proof.
  unfold updateLayer. rewrite map_map. apply map_ext. intros l.
  destruct (String.eqb (Layer.id l) i); reflexivity.
Qed.

Lemma updateLayer_other (i : string) (u : LayerUpdate) (ls : list (Layer.t N))
    (n : nat) (l : Layer.t N) :
  nth_error ls n = Some l -> Layer.id l <> i ->
  nth_error (updateLayer i u ls) n = Some l.
Proof.
  intros Hn Hid. unfold updateLayer. rewrite nth_error_map, Hn. cbn.
  apply String.eqb_neq in Hid. rewrite Hid. reflexivity.
Qed.

Lemma handleMouseMove_target (sel : option string) (i : Interaction)
    (e : MouseEvent) (id : string) (u : LayerUpdate) :
  handleMouseMove zoom visualW visualH sel i e = Some (id, u) ->
  selection sel = Some id
  /\ (mode i = moving -> upd_width u = None /\ upd_height u = None).
Proof.
  unfold handleMouseMove.
  destruct (mode i) eqn:Hm; [discriminate| |];
    destruct (startLayer i) as [sl|]; try discriminate;
    destruct (selection sel) as [s|]; try discriminate.
  - intros Heq. injection Heq as Hid Hu. subst. split; [reflexivity|].
    intros _. split; reflexivity.
  - destruct (activeHandle i) as [h|]; [|discriminate].
    destruct (resizeBox h sl _ _) as [[[nx ny] nw'] nh'].
    intros Heq. injection Heq as Hid Hu. subst. split; [reflexivity|].
    intros Hc. discriminate.
Qed.

(** A pointer-move never adds, drops or reorders layers, never changes the
    id, type, content, rotation, opacity or style of any layer, and leaves
    every layer other than the selected one exactly as it was; during a
    move gesture it also leaves every width and height as it was. *)
Theorem pointerMove_frame (st : Editor (N := N)) (e : MouseEvent) :
  let st' := pointerMove zoom visualW visualH st e in
  map layerFrame (ed_layers st') = map layerFrame (ed_layers st)
  /\ List.length (ed_layers st') = List.length (ed_layers st)
  /\ ed_selected st' = ed_selected st
  /\ ed_interaction st' = ed_interaction st
  /\ (forall n l, nth_error (ed_layers st) n = Some l ->
        selection (ed_selected st) <> Some (Layer.id l) ->
        nth_error (ed_layers st') n = Some l)
  /\ (mode (ed_interaction st) = moving ->
      map layerSize (ed_layers st') = map layerSize (ed_layers st)).
Proof.
  intros st'. subst st'. unfold pointerMove.
  destruct (handleMouseMove zoom visualW visualH (ed_selected st)
              (ed_interaction st) e) as [[i u]|] eqn:Hcall.
  - destruct (handleMouseMove_target _ _ _ _ _ Hcall) as [Hsel Hmove].
    cbn [ed_layers ed_selected ed_interaction].
    split; [apply updateLayer_frame|].
    split; [unfold updateLayer; apply length_map|].
    split; [reflexivity|]. split; [reflexivity|].
    split.
    + intros n l Hn Hne. apply updateLayer_other; [exact Hn|].
      intros Heq. apply Hne. rewrite Hsel, Heq. reflexivity.
    + intros Hm. destruct (Hmove Hm) as [Hw Hh].
      unfold updateLayer. rewrite map_map. apply map_ext. intros l.
      destruct (String.eqb (Layer.id l) i); [|reflexivity].
      unfold layerSize, mergeLayer. cbn. rewrite Hw, Hh. reflexivity.
  - repeat split; try reflexivity. intros n l Hn _. exact Hn.
Qed.

(** Outside a gesture, pointer-moves do nothing: after a pointer-up (or
    before any pointer-down) no sequence of pointer-moves changes the
    session, and a pointer-down that names no existing layer starts no
    gesture and selects nothing. *)
Theorem no_gesture_no_change (st : Editor (N := N)) (es : list MouseEvent)
    (e : MouseEvent) (layerId : string) (handle : option Handle) :
  fold_left (pointerMove zoom visualW visualH) es (pointerUp st) = pointerUp st
  /\ ed_layers (pointerUp st) = ed_layers st
  /\ (find (fun l => String.eqb (Layer.id l) layerId) (ed_layers st) = None ->
      pointerDown e layerId handle st = st).
Proof.
  split.
  { induction es as [|e1 es IH]; [reflexivity|]. cbn [fold_left].
    replace (pointerMove zoom visualW visualH (pointerUp st) e1)
      with (pointerUp st) by reflexivity.
    exact IH. }
  split; [reflexivity|].
  intros Hf. unfold pointerDown, handleMouseDown. rewrite Hf.
  destruct st. reflexivity.
Qed.

End GestureFrame.

(** ** Export: order of the calls *)

Section ExportOrder.
Context {N : Type} `{JsNumber N}.

Ltac page_ifs :=
  unfold pageEvents;
  repeat match goal with
         | |- context [if ?b then _ else _] => destruct b
         | |- context [match PosterConfig.cutLineStyle ?c with _ => _ end] =>
             destruct (PosterConfig.cutLineStyle c)
         end.

Lemma onCanvas_not_document_or_tile (e : Event N) :
  onCanvas e = true -> onDocumentOrTile e = false.
Proof. destruct e; cbn; congruence. Qed.

Lemma document_or_tile_not_onCanvas (e : Event N) :
  onDocumentOrTile e = true -> onCanvas e = false.
Proof. destruct e; cbn; congruence. Qed.

Lemma pageEvents_document_or_tile (env : Browser) (cfg : PosterConfig.t N)
    (g : Geometry) (r c : nat) :
  forallb onDocumentOrTile (pageEvents env cfg g r c) = true.
Proof. page_ifs; reflexivity. Qed.







Lemma forEachIndexed_flat_map {A B C} (f : B -> list C) (g : A -> nat -> list B)
    (xs : list A) :
  forall k, flat_map f (forEachIndexed g k xs)
            = forEachIndexed (fun x i => flat_map f (g x i)) k xs.
Proof.
  induction xs as [|x xs IH]; intros k; [reflexivity|].
  cbn [forEachIndexed]. rewrite flat_map_app, IH. reflexivity.
Qed.

Lemma forEachIndexed_nil {A B} (xs : list A) :
  forall k, forEachIndexed (fun (_ : A) (_ : nat) => @nil B) k xs = [].
Proof. induction xs as [|x xs IH]; intros k; [reflexivity|]. cbn. apply IH. Qed.

Lemma forEachIndexed_singletons {A} (xs : list A) :
  forall k, forEachIndexed (fun (x : A) (_ : nat) => [x]) k xs = xs.
Proof.
  induction xs as [|x xs IH]; intros k; [reflexivity|]. cbn. rewrite IH. reflexivity.
Qed.

Lemma drawLayer_painted (cw ch : Z) (l : Layer.t N) :
  paintedOpacities (drawLayer cw ch l) = [Layer.opacity l]
  /\ paintedImages (drawLayer cw ch l)
     = (if isImage l then [Layer.content l] else [])
  /\ paintedText (drawLayer cw ch l)
     = (if isText l then splitLines (Layer.content l) else [])
  /\ filter isCtxSave (drawLayer cw ch l) = [CtxSave]
  /\ filter isCtxRestore (drawLayer cw ch l) = [CtxRestore].
Proof.
  unfold drawLayer, paintedOpacities, paintedImages, paintedText, isImage, isText.
  rewrite !flat_map_app, !filter_app.
  destruct (Layer.type l).
  - repeat split; reflexivity.
  - rewrite !flat_map_app, !filter_app, !forEachIndexed_flat_map.
    cbn [flat_map app filter isCtxSave isCtxRestore].
    rewrite !forEachIndexed_nil, forEachIndexed_singletons, !app_nil_r.
    assert (Hs : forall p : Event N -> bool,
               (forall line x y, p (CtxFillText line x y) = false) ->
               forall lines k,
               filter p (forEachIndexed
                           (fun (line : string) (i : nat) =>
                              [CtxFillText line
                                 (Layer.x l * of_Z cw)%js
                                 (Layer.y l * of_Z ch
                                  + ofNat i
                                    * (of_Z ch * lit (5 # 100)
                                       * orNumber (optChain (@Style.fontSize N) (Layer.style l)) (lit 1))
                                    * lit (12 # 10))%js]) k lines) = []).
    { intros p Hp lines. induction lines as [|a lines IH]; intros k; [reflexivity|].
      cbn [forEachIndexed app filter]. rewrite Hp. apply IH. }
    rewrite !Hs by reflexivity.
    repeat split; reflexivity.
Qed.



End ExportOrder.


(** ** Export: the tiles, in exact arithmetic *)

Lemma inject_Z_succ_nat (c : nat) :
  (inject_Z (Z.of_nat (S c)) == inject_Z (Z.of_nat c) + 1)%Q.
Proof. rewrite Nat2Z.inj_succ. unfold Z.succ. rewrite inject_Z_plus. reflexivity. Qed.

(** Below the last one, every tile along an axis is a full one. *)
Lemma tile_full (t p : Q) (c : nat) :
  (0 < p)%Q -> (Z.of_nat (S c) < Qceiling (t / p))%Z ->
  (Qmin p (t - inject_Z (Z.of_nat c) * p) == p)%Q.
Proof.
  intros Hp Hc. destruct (ceiling_cover t p Hp) as [Hlo _].
  set (k := Qceiling (t / p)) in *.
  assert (Hck : (inject_Z (Z.of_nat (S c)) <= inject_Z k - 1)%Q).
  { rewrite <- inject_Z_pred, <- Zle_Qle. lia. }
  rewrite inject_Z_succ_nat in Hck.
  assert (Hcp : ((inject_Z (Z.of_nat c) + 1) * p <= (inject_Z k - 1) * p)%Q)
    by (apply Qmult_le_compat_r; lra).
  apply Q.min_l. lra.
Qed.

Lemma sumQ_app (a b : list Q) : (sumQ (a ++ b) == sumQ a + sumQ b)%Q.
Proof.
  induction a as [|x a IH].
  - change (sumQ ([] ++ b)) with (sumQ b). change (sumQ []) with 0%Q.
    rewrite Qplus_0_l. reflexivity.
  - change (sumQ ((x :: a) ++ b)) with (x + sumQ (a ++ b))%Q.
    change (sumQ (x :: a)) with (x + sumQ a)%Q.
    rewrite IH. apply Qplus_assoc.
Qed.

Lemma tiles_sum_full (t p : Q) (m : nat) :
  (0 < p)%Q -> (Z.of_nat m < Qceiling (t / p))%Z ->
  (sumQ (map (fun c => Qmin p (t - inject_Z (Z.of_nat c) * p)) (seq 0 m))
   == inject_Z (Z.of_nat m) * p)%Q.
Proof.
  intros Hp. induction m as [|m IH]; intros Hm.
  - cbn. ring.
  - rewrite seq_S, map_app, sumQ_app, IH by lia.
    cbn [Nat.add map sumQ fold_right].
    rewrite (tile_full t p m Hp Hm), inject_Z_succ_nat. ring.
Qed.

Lemma tiles_sum_all (t p : Q) :
  (0 < p)%Q -> (0 < t)%Q ->
  (sumQ (map (fun c => Qmin p (t - inject_Z (Z.of_nat c) * p))
             (seq 0 (Z.to_nat (Qceiling (t / p)))))
   == t)%Q.
Proof.
  intros Hp Ht. pose proof (ceiling_positive t p Hp Ht) as Hk.
  set (k := Qceiling (t / p)) in *.
  replace (Z.to_nat k) with (S (Z.to_nat (k - 1))) by lia.
  rewrite seq_S, map_app, sumQ_app.
  rewrite (tiles_sum_full t p (Z.to_nat (k - 1)) Hp) by (fold k; lia).
  cbn [Nat.add map sumQ fold_right].
  destruct (tile_extent t p (Z.to_nat (k - 1)) Hp) as (_ & _ & Hlast);
    [fold k; lia|].
  fold k in Hlast. rewrite Hlast by lia.
  rewrite Z2Nat.id by lia. ring.
Qed.

(** In exact arithmetic, in either mode, with a positive poster and
    printable area: the tiles of a row add up to the poster's width and the
    tiles of a column to its height, so the pages carry the whole poster and
    nothing twice; every tile but the last of its row (column) is a full
    one, and each tile starts where the one before it ends. *)
Theorem tiles_partition_poster (cfg : PosterConfig.t Q) (paper : PaperSize.t Q) :
  let g := geometry cfg paper in
  (0 < posterWidth g)%Q -> (0 < posterHeight g)%Q ->
  (0 < g_printW g)%Q -> (0 < g_printH g)%Q ->
  (sumQ (map (tileWidth g) (seq 0 (Z.to_nat (g_cols g)))) == posterWidth g)%Q
  /\ (sumQ (map (tileHeight g) (seq 0 (Z.to_nat (g_rows g)))) == posterHeight g)%Q
  /\ (forall c, (S c < Z.to_nat (g_cols g))%nat ->
        (tileWidth g c == g_printW g)%Q
        /\ (ofNat c * g_printW g + tileWidth g c == ofNat (S c) * g_printW g)%Q)
  /\ (forall r, (S r < Z.to_nat (g_rows g))%nat ->
        (tileHeight g r == g_printH g)%Q
        /\ (ofNat r * g_printH g + tileHeight g r == ofNat (S r) * g_printH g)%Q).
Proof.
  intros g Hw Hh Hpw Hph.
  assert (Hcols : g_cols g = Qceiling (posterWidth g / g_printW g)) by reflexivity.
  assert (Hrows : g_rows g = Qceiling (posterHeight g / g_printH g)) by reflexivity.
  split.
  { rewrite Hcols. apply (tiles_sum_all (posterWidth g) (g_printW g) Hpw Hw). }
  split.
  { rewrite Hrows. apply (tiles_sum_all (posterHeight g) (g_printH g) Hph Hh). }
  split.
  - intros c Hc.
    assert (Hfull : (tileWidth g c == g_printW g)%Q).
    { apply (tile_full (posterWidth g) (g_printW g) c Hpw). rewrite <- Hcols. lia. }
    split; [exact Hfull|]. rewrite Hfull. unfold ofNat. js_unfold.
    rewrite inject_Z_succ_nat. ring.
  - intros r Hr.
    assert (Hfull : (tileHeight g r == g_printH g)%Q).
    { apply (tile_full (posterHeight g) (g_printH g) r Hph). rewrite <- Hrows. lia. }
    split; [exact Hfull|]. rewrite Hfull. unfold ofNat. js_unfold.
    rewrite inject_Z_succ_nat. ring.
Qed.

Lemma tiles_partition_poster_witness :
  (sumQ (map (tileWidth (geometry sizeConfig (selectedPaper sizeConfig)))
             (seq 0 (Z.to_nat (g_cols (geometry sizeConfig (selectedPaper sizeConfig))))))
   == 36)%Q.
Proof.
  exact (proj1 (tiles_partition_poster sizeConfig (selectedPaper sizeConfig)
                  eq_refl eq_refl eq_refl eq_refl)).
Defined.

Section PageInversion.
Context {N : Type} `{JsNumber N}.

(** The tile calls of a page are the ones of its positive tile. *)
Lemma pageEvents_tile_inv (env : Browser) (cfg : PosterConfig.t N)
    (g : Geometry) (r c : nat) (sx sy sw' sh dx dy dw dh : N) :
  In (TileDrawImage sx sy sw' sh dx dy dw dh) (pageEvents env cfg g r c) ->
  ((lit 0 <? tileWidth g c * scale g) && (lit 0 <? tileHeight g r * scale g))%js
  = true
  /\ sx = (ofNat c * g_printW g * scale g)%js
  /\ sy = (ofNat r * g_printH g * scale g)%js
  /\ sw' = (tileWidth g c * scale g)%js /\ sh = (tileHeight g r * scale g)%js
  /\ dx = lit 0 /\ dy = lit 0 /\ dw = sw' /\ dh = sh.
Proof.
  unfold pageEvents. fold (tileWidth g c) (tileHeight g r).
  destruct ((lit 0 <? tileWidth g c * scale g)
            && (lit 0 <? tileHeight g r * scale g))%js;
    destruct (tileContext env r c);
    destruct (PosterConfig.showCutLines cfg);
    destruct (PosterConfig.cutLineStyle cfg);
    destruct (PosterConfig.showPageNumbers cfg);
    cbn; intros Hin;
    repeat (destruct Hin as [Hin|Hin]; [try discriminate Hin|]);
    try contradiction;
    injection Hin; intros; subst; repeat split; reflexivity.
Qed.

Lemma pageEvents_image_inv (env : Browser) (cfg : PosterConfig.t N)
    (g : Geometry) (r c : nat) (x y w h : N) :
  In (AddImage x y w h) (pageEvents env cfg g r c) ->
  ((lit 0 <? tileWidth g c * scale g) && (lit 0 <? tileHeight g r * scale g))%js
  = true
  /\ x = PosterConfig.margin cfg /\ y = PosterConfig.margin cfg
  /\ w = tileWidth g c /\ h = tileHeight g r.
Proof.
  unfold pageEvents. fold (tileWidth g c) (tileHeight g r).
  destruct ((lit 0 <? tileWidth g c * scale g)
            && (lit 0 <? tileHeight g r * scale g))%js;
    destruct (tileContext env r c);
    destruct (PosterConfig.showCutLines cfg);
    destruct (PosterConfig.cutLineStyle cfg);
    destruct (PosterConfig.showPageNumbers cfg);
    cbn; intros Hin;
    repeat (destruct Hin as [Hin|Hin]; [try discriminate Hin|]);
    try contradiction;
    injection Hin; intros; subst; repeat split; reflexivity.
Qed.

(** A call of an export on the document or on a tile canvas was made after
    the margin check passed and the canvas was created; it belongs to a
    page or is one of the three calls around the pages. *)
Lemma trace_document_or_tile_call (env : Browser) (cfg : PosterConfig.t N)
    (ls : list (Layer.t N)) (paper : PaperSize.t N) (e : Event N) :
  let g := geometry cfg paper in
  In e (fst (generateTiledPDF env cfg ls paper)) ->
  onDocumentOrTile e = true ->
  ((g_printW g <=? lit 0) || (g_printH g <=? lit 0))%js = false
  /\ In (CreateCanvas (ceil (posterWidth g * scale g)%js)
                      (ceil (posterHeight g * scale g)%js))
        (fst (generateTiledPDF env cfg ls paper))
  /\ ((exists r c, In e (pageEvents env cfg g r c))
      \/ e = NewDocument (if isPortrait g then "p" else "l")%string
               (PosterConfig.unit cfg) (pWidth g) (pHeight g)
      \/ e = DeletePage 1 \/ e = DocSave outputFile).
Proof.
  intros g. unfold generateTiledPDF. fold g.
  destruct ((g_printW g <=? lit 0) || (g_printH g <=? lit 0))%js;
    [intros []|].
  destruct (canvasContext env); cbn [negb fst].
  - intros Hin Hdoc. split; [reflexivity|]. split; [left; reflexivity|].
    change (In e (CreateCanvas (ceil (posterWidth g * scale g)%js)
                    (ceil (posterHeight g * scale g)%js)
                  :: CanvasFillStyle "#ffffff"
                  :: CanvasFillRect (lit 0) (lit 0)
                       (ceil (posterWidth g * scale g)%js)
                       (ceil (posterHeight g * scale g)%js)
                  :: (flat_map (drawLayer (ceil (posterWidth g * scale g)%js)
                                  (ceil (posterHeight g * scale g)%js)) ls
                      ++ [NewDocument (if isPortrait g then "p" else "l")%string
                            (PosterConfig.unit cfg) (pWidth g) (pHeight g);
                          DeletePage 1]
                      ++ flat_map (fun rc => pageEvents env cfg g (fst rc) (snd rc))
                           (pageCells (g_rows g) (g_cols g))
                      ++ [DocSave outputFile]))) in Hin.
    destruct Hin as [He|[He|[He|Hin]]];
      try (subst e; discriminate Hdoc).
    apply in_app_or in Hin. destruct Hin as [Hin|Hin].
    { pose proof (drawLayers_onCanvas (ceil (posterWidth g * scale g)%js)
                    (ceil (posterHeight g * scale g)%js) ls) as Hall.
      rewrite forallb_forall in Hall. apply Hall in Hin.
      rewrite (onCanvas_not_document_or_tile e Hin) in Hdoc. discriminate. }
    destruct Hin as [He|[He|Hin]]; [right; left; auto|right; right; left; auto|].
    change (In e (flat_map (fun rc => pageEvents env cfg g (fst rc) (snd rc))
                    (pageCells (g_rows g) (g_cols g))
                  ++ [DocSave outputFile])) in Hin.
    apply in_app_or in Hin. destruct Hin as [Hin|Hin].
    + left. apply in_flat_map in Hin. destruct Hin as ([r c] & _ & Hin).
      exists r, c. exact Hin.
    + cbn [In] in Hin. destruct Hin as [He|[]]. right. right. right. auto.
  - intros [He|[]] Hdoc. subst e. discriminate.
Qed.

Lemma trace_canvas_size (env : Browser) (cfg : PosterConfig.t N)
    (ls : list (Layer.t N)) (paper : PaperSize.t N) (cw ch : Z) :
  let g := geometry cfg paper in
  In (CreateCanvas cw ch) (fst (generateTiledPDF env cfg ls paper)) ->
  cw = ceil (posterWidth g * scale g)%js /\ ch = ceil (posterHeight g * scale g)%js.
Proof.
  intros g. unfold generateTiledPDF. fold g.
  destruct ((g_printW g <=? lit 0) || (g_printH g <=? lit 0))%js;
    [intros []|].
  destruct (canvasContext env); cbn [negb fst].
  - intros Hin.
    change (In (CreateCanvas cw ch)
              (CreateCanvas (ceil (posterWidth g * scale g)%js)
                    (ceil (posterHeight g * scale g)%js)
                  :: CanvasFillStyle "#ffffff"
                  :: CanvasFillRect (lit 0) (lit 0)
                       (ceil (posterWidth g * scale g)%js)
                       (ceil (posterHeight g * scale g)%js)
                  :: (flat_map (drawLayer (ceil (posterWidth g * scale g)%js)
                                  (ceil (posterHeight g * scale g)%js)) ls
                      ++ [NewDocument (if isPortrait g then "p" else "l")%string
                            (PosterConfig.unit cfg) (pWidth g) (pHeight g);
                          DeletePage 1]
                      ++ flat_map (fun rc => pageEvents env cfg g (fst rc) (snd rc))
                           (pageCells (g_rows g) (g_cols g))
                      ++ [DocSave outputFile]))) in Hin.
    destruct Hin as [He|[He|[He|Hin]]]; try discriminate He.
    { injection He; intros; subst; split; reflexivity. }
    apply in_app_or in Hin. destruct Hin as [Hin|Hin].
    { exfalso. apply in_flat_map in Hin. destruct Hin as (l & _ & Hin).
      unfold drawLayer in Hin.
      repeat (apply in_app_or in Hin; destruct Hin as [Hin|Hin]);
        try (cbn in Hin; repeat (destruct Hin as [Hin|Hin]; [discriminate Hin|]);
             contradiction).
      destruct (Layer.type l).
      - cbn in Hin. destruct Hin as [Hin|[]]. discriminate.
      - apply in_app_or in Hin. destruct Hin as [Hin|Hin].
        + cbn in Hin. repeat (destruct Hin as [Hin|Hin]; [discriminate Hin|]).
          contradiction.
        + revert Hin. generalize 0%nat.
          induction (splitLines (Layer.content l)) as [|a lines IH]; intros k Hin;
            [contradiction|].
          cbn in Hin. destruct Hin as [Hin|Hin]; [discriminate|].
          apply (IH _ Hin). }
    exfalso. destruct Hin as [He|[He|Hin]]; try discriminate.
    change (In (CreateCanvas cw ch)
              (flat_map (fun rc => pageEvents env cfg g (fst rc) (snd rc))
                    (pageCells (g_rows g) (g_cols g))
                  ++ [DocSave outputFile])) in Hin.
    apply in_app_or in Hin.
    destruct Hin as [Hin|Hin]; [|cbn [In] in Hin; destruct Hin as [He|[]]; discriminate].
    apply in_flat_map in Hin. destruct Hin as ([r c] & _ & Hin).
    pose proof (pageEvents_document_or_tile env cfg g r c) as Hall.
    rewrite forallb_forall in Hall. apply Hall in Hin. discriminate.
  - intros [He|[]]. injection He; intros; subst; split; reflexivity.
Qed.

End PageInversion.

Lemma margin_check_passed (g : Geometry (N := Q)) :
  (Qle_bool (g_printW g) 0 || Qle_bool (g_printH g) 0) = false ->
  (0 < g_printW g)%Q /\ (0 < g_printH g)%Q.
Proof.
  intros Hb. apply orb_false_iff in Hb. destruct Hb as [Hw Hh].
  split; apply Qnot_le_lt; intros Hle; apply Qle_bool_iff in Hle; congruence.
Qed.

Lemma ofNat_nonneg (c : nat) : (0 <= ofNat (N := Q) c)%Q.
Proof.
  unfold ofNat. js_unfold. change 0%Q with (inject_Z 0).
  rewrite <- Zle_Qle. lia.
Qed.

(** In exact arithmetic every tile an export copies from the canvas is a
    rectangle of positive size that lies inside the canvas it created, and
    it is copied without scaling (the destination has the source's size, at
    the origin of the tile canvas). *)
Theorem tile_reads_stay_inside_canvas (env : Browser) (cfg : PosterConfig.t Q)
    (ls : list (Layer.t Q)) (paper : PaperSize.t Q) (cw ch : Z)
    (sx sy sw' sh dx dy dw dh : Q) :
  In (CreateCanvas cw ch) (fst (generateTiledPDF env cfg ls paper)) ->
  In (TileDrawImage sx sy sw' sh dx dy dw dh)
     (fst (generateTiledPDF env cfg ls paper)) ->
  (0 <= sx)%Q /\ (0 <= sy)%Q /\ (0 < sw')%Q /\ (0 < sh)%Q
  /\ (sx + sw' <= inject_Z cw)%Q /\ (sy + sh <= inject_Z ch)%Q
  /\ dx = 0%Q /\ dy = 0%Q /\ dw = sw' /\ dh = sh.
Proof.
  intros Hcanvas Htile.
  destruct (trace_canvas_size env cfg ls paper cw ch Hcanvas) as [Hcw Hch].
  destruct (trace_document_or_tile_call env cfg ls paper _ Htile eq_refl)
    as (Hcheck & _ & Hwhere).
  set (g := geometry cfg paper) in *.
  destruct (margin_check_passed g Hcheck) as [Hpw Hph].
  destruct Hwhere as [(r & c & Hin)|[He|[He|He]]]; try discriminate He.
  destruct (pageEvents_tile_inv env cfg g r c _ _ _ _ _ _ _ _ Hin)
    as (Hpos & Hsx & Hsy & Hsw & Hsh & Hdx & Hdy & Hdw & Hdh).
  pose proof (scale_positive cfg paper) as Hs. fold g in Hs.
  apply andb_true_iff in Hpos. destruct Hpos as [Hposw Hposh].
  apply Qltb_true in Hposw, Hposh.
  pose proof (ofNat_nonneg c) as Hc. pose proof (ofNat_nonneg r) as Hr.
  js_unfold. subst sx sy sw' sh dx dy dw dh cw ch.
  assert (Hcp : (0 <= ofNat c * g_printW g)%Q) by (apply Qmult_le_0_compat; lra).
  assert (Hrp : (0 <= ofNat r * g_printH g)%Q) by (apply Qmult_le_0_compat; lra).
  assert (Hwle : (tileWidth g c <= posterWidth g - ofNat c * g_printW g)%Q)
    by apply Q.le_min_r.
  assert (Hhle : (tileHeight g r <= posterHeight g - ofNat r * g_printH g)%Q)
    by apply Q.le_min_r.
  split; [apply Qmult_le_0_compat; lra|].
  split; [apply Qmult_le_0_compat; lra|].
  split; [exact Hposw|]. split; [exact Hposh|].
  split.
  { apply Qle_trans with (posterWidth g * scale g)%Q; [|apply Qle_ceiling].
    setoid_replace (ofNat c * g_printW g * scale g + tileWidth g c * scale g)%Q
      with ((ofNat c * g_printW g + tileWidth g c) * scale g)%Q by ring.
    apply Qmult_le_compat_r; lra. }
  split.
  { apply Qle_trans with (posterHeight g * scale g)%Q; [|apply Qle_ceiling].
    setoid_replace (ofNat r * g_printH g * scale g + tileHeight g r * scale g)%Q
      with ((ofNat r * g_printH g + tileHeight g r) * scale g)%Q by ring.
    apply Qmult_le_compat_r; lra. }
  repeat split; reflexivity.
Qed.

(** In exact arithmetic every image an export places on a page starts at
    the margin, has a positive size no larger than the printable area, and
    so ends at least one margin before the right and the bottom edge of the
    page. *)
Theorem page_image_inside_margins (env : Browser) (cfg : PosterConfig.t Q)
    (ls : list (Layer.t Q)) (paper : PaperSize.t Q) (x y w h : Q) :
  let g := geometry cfg paper in
  In (AddImage x y w h) (fst (generateTiledPDF env cfg ls paper)) ->
  x = PosterConfig.margin cfg /\ y = PosterConfig.margin cfg
  /\ (0 < w)%Q /\ (w <= g_printW g)%Q /\ (0 < h)%Q /\ (h <= g_printH g)%Q
  /\ (x + w + PosterConfig.margin cfg <= pWidth g)%Q
  /\ (y + h + PosterConfig.margin cfg <= pHeight g)%Q.
Proof.
  intros g Himg.
  destruct (trace_document_or_tile_call env cfg ls paper _ Himg eq_refl)
    as (_ & _ & Hwhere).
  fold g in Hwhere.
  destruct Hwhere as [(r & c & Hin)|[He|[He|He]]]; try discriminate He.
  destruct (pageEvents_image_inv env cfg g r c _ _ _ _ Hin)
    as (Hpos & Hx & Hy & Hw & Hh).
  pose proof (scale_positive cfg paper) as Hs. fold g in Hs.
  apply andb_true_iff in Hpos. destruct Hpos as [Hposw Hposh].
  apply Qltb_true in Hposw, Hposh. js_unfold.
  assert (Hwle : (tileWidth g c <= g_printW g)%Q) by apply Q.le_min_l.
  assert (Hhle : (tileHeight g r <= g_printH g)%Q) by apply Q.le_min_l.
  assert (Hw0 : (0 < tileWidth g c)%Q).
  { apply Qnot_le_lt. intros Hle.
    assert (tileWidth g c * scale g <= 0 * scale g)%Q
      by (apply Qmult_le_compat_r; lra). lra. }
  assert (Hh0 : (0 < tileHeight g r)%Q).
  { apply Qnot_le_lt. intros Hle.
    assert (tileHeight g r * scale g <= 0 * scale g)%Q
      by (apply Qmult_le_compat_r; lra). lra. }
  assert (Hpw : g_printW g = (pWidth g - PosterConfig.margin cfg * 2)%Q) by reflexivity.
  assert (Hph : g_printH g = (pHeight g - PosterConfig.margin cfg * 2)%Q) by reflexivity.
  subst x y w h.
  split; [reflexivity|]. split; [reflexivity|].
  split; [exact Hw0|]. split; [exact Hwle|].
  split; [exact Hh0|]. split; [exact Hhle|].
  rewrite Hpw in Hwle. rewrite Hph in Hhle. split; lra.
Qed.

Lemma tile_reads_stay_inside_canvas_witness :
  ((0 # 25400) + (22860000 # 25400) <= inject_Z 2700)%Q.
Proof.
  refine (proj1 (proj2 (proj2 (proj2 (proj2
    (tile_reads_stay_inside_canvas browser initialConfig []
       (selectedPaper initialConfig) 2700 3600
       (0 # 25400) (0 # 25400) (22860000 # 25400) (30480000 # 25400)
       0 0 (22860000 # 25400) (30480000 # 25400) _ _)))))).
  - left. reflexivity.
  - vm_compute. do 7 right. left. reflexivity.
Defined.

Lemma page_image_inside_margins_witness :
  ((190500 # 25400) <= 75 # 10)%Q.
Proof.
  refine (proj1 (proj2 (proj2 (proj2
    (page_image_inside_margins browser initialConfig []
       (selectedPaper initialConfig)
       (5 # 10) (5 # 10) (190500 # 25400) (254000 # 25400) _))))).
  vm_compute. do 8 right. left. reflexivity.
Defined.

(** ** Unit toggle: no drift *)

Lemma floor_unique (v : Q) (k : Z) :
  (inject_Z k <= v)%Q -> (v < inject_Z k + 1)%Q -> Qfloor v = k.
Proof.
  intros Hlo Hhi.
  pose proof (Qfloor_le v) as Hf. pose proof (Qlt_floor v) as Hg.
  rewrite inject_Z_plus in Hg. change (inject_Z 1) with 1%Q in Hg.
  assert (H1 : (inject_Z (Qfloor v) < inject_Z (k + 1))%Q)
    by (rewrite inject_Z_plus; change (inject_Z 1) with 1%Q; lra).
  assert (H2 : (inject_Z k < inject_Z (Qfloor v + 1))%Q)
    by (rewrite inject_Z_plus; change (inject_Z 1) with 1%Q; lra).
  rewrite <- Zlt_Qlt in H1, H2. lia.
Qed.

(** Rounding to two decimals gives back a two-decimal value from anything
    less than half a hundredth away from it. *)
Lemma Q_toFixed2_fixes (x y : Q) (k : Z) :
  (x == inject_Z k / 100)%Q -> (Qabs (y - x) < 1 # 200)%Q ->
  Qle_bool (inject_Z (10 ^ 21)) (Qabs y) = false ->
  (Q_toFixed2 y == x)%Q.
Proof.
  intros Hx Hnear Hsmall. unfold Q_toFixed2. rewrite Hsmall.
  apply Qabs_Qlt_condition in Hnear. destruct Hnear as [Hlo Hhi].
  unfold Qdiv in *. change (/ 100)%Q with (1 # 100)%Q in *.
  destruct (Qle_bool 0 y) eqn:Hs.
  - apply Qle_bool_iff in Hs. rewrite (Qabs_pos y Hs).
    rewrite (floor_unique (y * 100 + (1 # 2)) k) by lra. lra.
  - assert (Hneg : (y < 0)%Q).
    { apply Qnot_le_lt. intro Hc. apply Qle_bool_iff in Hc. congruence. }
    rewrite (Qabs_neg y) by lra.
    rewrite (floor_unique (- y * 100 + (1 # 2)) (- k)).
    + rewrite inject_Z_opp. lra.
    + rewrite inject_Z_opp. lra.
    + rewrite inject_Z_opp. lra.
Qed.

Lemma Q_toFixed2_large (y : Q) :
  Qle_bool (inject_Z (10 ^ 21)) (Qabs y) = true -> Q_toFixed2 y = y.
Proof. intros Hl. unfold Q_toFixed2. rewrite Hl. reflexivity. Qed.

Lemma Q_toFixed2_rounded (y : Q) :
  Qle_bool (inject_Z (10 ^ 21)) (Qabs y) = false -> twoDecimals (Q_toFixed2 y).
Proof.
  intros Hs. unfold Q_toFixed2. rewrite Hs.
  destruct (Qle_bool 0 y).
  - eexists. reflexivity.
  - exists (- Qfloor (Qabs y * 100 + (1 # 2)))%Z.
    rewrite inject_Z_opp. unfold Qdiv. ring.
Qed.

Lemma large_iff (y : Q) :
  Qle_bool (inject_Z (10 ^ 21)) (Qabs y) = true
  <-> (inject_Z (10 ^ 21) <= Qabs y)%Q.
Proof. apply Qle_bool_iff. Qed.

Lemma small_iff (y : Q) :
  Qle_bool (inject_Z (10 ^ 21)) (Qabs y) = false
  <-> (Qabs y < inject_Z (10 ^ 21))%Q.
Proof.
  split.
  - intros Hb. apply Qnot_le_lt. intros Hle. apply Qle_bool_iff in Hle. congruence.
  - intros Hlt. destruct (Qle_bool _ _) eqn:Hb; [|reflexivity].
    apply Qle_bool_iff in Hb. lra.
Qed.

Lemma Qabs_scale_254 (a : Q) : (Qabs (a * (254 # 10)) == Qabs a * (254 # 10))%Q.
Proof. rewrite Qabs_Qmult. reflexivity. Qed.

Lemma Qabs_scale_inv (a : Q) : (Qabs (a * (10 # 254)) == Qabs a * (10 # 254))%Q.
Proof. rewrite Qabs_Qmult. reflexivity. Qed.

(** From inches to millimeters and back: exact on two-decimal values and on
    the values too large to be rounded. *)
Lemma inch_mm_inch (x : Q) :
  twoDecimals x \/ Qle_bool (inject_Z (10 ^ 21)) (Qabs x) = true ->
  (Q_toFixed2 (Q_toFixed2 (x * (254 # 10)) * (1 / (254 # 10))) == x)%Q.
Proof.
  change (1 / (254 # 10))%Q with (10 # 254)%Q.
  change (inject_Z (10 ^ 21)) with (1000000000000000000000 # 1)%Q.
  intros Hx.
  pose proof (Qabs_nonneg x) as Hx0.
  destruct (Qle_bool (inject_Z (10 ^ 21)) (Qabs (x * (254 # 10)))) eqn:H1.
  - rewrite (Q_toFixed2_large _ H1).
    assert (Hback : (x * (254 # 10) * (10 # 254) == x)%Q) by ring.
    destruct (Qle_bool (inject_Z (10 ^ 21)) (Qabs (x * (254 # 10) * (10 # 254))))
      eqn:H2.
    + rewrite (Q_toFixed2_large _ H2). exact Hback.
    + destruct Hx as [[k Hk]|Hl].
      * apply (Q_toFixed2_fixes x _ k Hk); [|exact H2].
        setoid_replace (x * (254 # 10) * (10 # 254) - x)%Q with 0%Q by ring.
        reflexivity.
      * apply small_iff in H2. apply large_iff in Hl.
        rewrite Hback in H2.
        change (inject_Z (10 ^ 21)) with (1000000000000000000000 # 1)%Q in *.
        lra.
  - apply small_iff in H1. rewrite Qabs_scale_254 in H1.
    change (inject_Z (10 ^ 21)) with (1000000000000000000000 # 1)%Q in H1.
    destruct Hx as [[k Hk]|Hl];
      [|apply large_iff in Hl;
        change (inject_Z (10 ^ 21)) with (1000000000000000000000 # 1)%Q in Hl; lra].
    pose proof (Q_toFixed2_close (x * (254 # 10))) as Hclose.
    set (a := Q_toFixed2 (x * (254 # 10))) in *.
    apply Qabs_Qle_condition in Hclose. destruct Hclose as [Hc1 Hc2].
    assert (Hnear : (Qabs (a * (10 # 254) - x) < 1 # 200)%Q).
    { apply Qabs_Qlt_condition. split; lra. }
    apply (Q_toFixed2_fixes x _ k Hk Hnear).
    apply small_iff.
    change (inject_Z (10 ^ 21)) with (1000000000000000000000 # 1)%Q.
    apply Qabs_Qlt_condition in Hnear. destruct Hnear as [Hn1 Hn2].
    apply Qabs_Qlt_condition.
    destruct (Qabs_Qle_condition x (Qabs x)) as [Hb _].
    specialize (Hb (Qle_refl _)). destruct Hb as [Hb1 Hb2].
    split; lra.
Qed.

Lemma Q_toFixed2_stable (z : Q) :
  twoDecimals (Q_toFixed2 z)
  \/ Qle_bool (inject_Z (10 ^ 21)) (Qabs (Q_toFixed2 z)) = true.
Proof.
  destruct (Qle_bool (inject_Z (10 ^ 21)) (Qabs z)) eqn:Hz.
  - right. rewrite (Q_toFixed2_large z Hz). exact Hz.
  - left. apply Q_toFixed2_rounded, Hz.
Qed.

(** In exact arithmetic, a configuration in inches whose physical fields
    have at most two decimals (what the fields hold after any toggle, and
    what a user types) comes back unchanged from a toggle to millimeters
    and a toggle back. *)
Theorem inch_round_trip_exact (cfg : PosterConfig.t Q) :
  PosterConfig.unit cfg = INCH ->
  twoDecimals (PosterConfig.targetWidth cfg) ->
  twoDecimals (PosterConfig.targetHeight cfg) ->
  twoDecimals (PosterConfig.margin cfg) ->
  twoDecimals (PosterConfig.overlap cfg) ->
  let back := toggleUnitConfig (toggleUnitConfig cfg) in
  PosterConfig.unit back = INCH
  /\ (PosterConfig.targetWidth back == PosterConfig.targetWidth cfg)%Q
  /\ (PosterConfig.targetHeight back == PosterConfig.targetHeight cfg)%Q
  /\ (PosterConfig.margin back == PosterConfig.margin cfg)%Q
  /\ (PosterConfig.overlap back == PosterConfig.overlap cfg)%Q.
Proof.
  intros Hu Hw Hh Hm Ho. unfold toggleUnitConfig. rewrite Hu. cbn.
  split; [reflexivity|].
  repeat split; apply inch_mm_inch; left; assumption.
Qed.

(** In exact arithmetic the unit toggle does not drift: starting from any
    configuration in millimeters, the third toggle gives the configuration
    of the first one again (and so on), so repeated toggling alternates
    between two configurations. *)
Theorem toggle_does_not_drift (cfg : PosterConfig.t Q) :
  PosterConfig.unit cfg = MM ->
  let once := toggleUnitConfig cfg in
  let thrice := toggleUnitConfig (toggleUnitConfig once) in
  PosterConfig.unit thrice = PosterConfig.unit once
  /\ (PosterConfig.targetWidth thrice == PosterConfig.targetWidth once)%Q
  /\ (PosterConfig.targetHeight thrice == PosterConfig.targetHeight once)%Q
  /\ (PosterConfig.margin thrice == PosterConfig.margin once)%Q
  /\ (PosterConfig.overlap thrice == PosterConfig.overlap once)%Q
  /\ PosterConfig.mode thrice = PosterConfig.mode cfg
  /\ PosterConfig.gridRows thrice = PosterConfig.gridRows cfg
  /\ PosterConfig.gridCols thrice = PosterConfig.gridCols cfg
  /\ PosterConfig.paperId thrice = PosterConfig.paperId cfg.
Proof.
  intros Hu. unfold toggleUnitConfig. rewrite Hu. cbn.
  split; [reflexivity|].
  repeat split; apply inch_mm_inch, Q_toFixed2_stable.
Qed.

Lemma inch_round_trip_exact_witness :
  (PosterConfig.targetWidth
     (toggleUnitConfig (toggleUnitConfig (typedWidthConfig (3625 # 100))))
   == 3625 # 100)%Q.
Proof.
  refine (proj1 (proj2
    (inch_round_trip_exact (typedWidthConfig (3625 # 100)) eq_refl _ _ _ _))).
  - exists 3625%Z. reflexivity.
  - exists 4800%Z. reflexivity.
  - exists 50%Z. reflexivity.
  - exists 25%Z. reflexivity.
Defined.

Lemma toggle_does_not_drift_witness :
  (PosterConfig.targetWidth
     (toggleUnitConfig (toggleUnitConfig (toggleUnitConfig (mmConfig 100))))
   == 394 # 100)%Q.
Proof.
  rewrite (proj1 (proj2 (toggle_does_not_drift (mmConfig 100) eq_refl))).
  reflexivity.
Defined.

(** ** Resize: the handle follows the pointer *)

(** In exact arithmetic, while neither dimension is at the floor, the corner
    under the dragged handle moves by exactly the pointer delta (as a
    fraction of the poster), for each of the four handles. *)
Theorem resize_handle_tracks_pointer (h : Handle) (sl : Layer.t Q) (dx dy : Q) :
  (1 # 100 <= proposedWidth h sl dx)%Q ->
  (1 # 100 <= proposedHeight h sl dy)%Q ->
  (fst (draggedCorner h (resizeBox h sl dx dy))
   == fst (draggedCorner h (layerBox sl)) + dx)%Q
  /\ (snd (draggedCorner h (resizeBox h sl dx dy))
      == snd (draggedCorner h (layerBox sl)) + dy)%Q
  /\ (snd (fst (resizeBox h sl dx dy)) == proposedWidth h sl dx)%Q
  /\ (snd (resizeBox h sl dx dy) == proposedHeight h sl dy)%Q.
Proof.
  unfold resizeBox, MIN_SIZE, layerBox, proposedWidth, proposedHeight.
  js_unfold. intros Hw Hh.
  destruct h; cbn [draggedCorner fst snd];
    repeat match goal with
           | |- context [negb (Qle_bool ?b ?a)] =>
               let Hc := fresh "Hc" in
               destruct (negb (Qle_bool b a)) eqn:Hc;
               [apply Qltb_true in Hc; lra | clear Hc]
           end;
    cbn [draggedCorner fst snd];
    rewrite ?(Q.max_r (1 # 100) (Layer.width sl + dx)) by exact Hw;
    rewrite ?(Q.max_r (1 # 100) (Layer.height sl + dy)) by exact Hh;
    repeat split; try reflexivity; ring.
Qed.

Lemma resize_handle_tracks_pointer_witness :
  (fst (draggedCorner se
          (resizeBox se (imageLayer "layer-1" "data:image/png") (1 # 10) (-1 # 5)))
   == (25 # 100) + (5 # 10) + (1 # 10))%Q.
Proof.
  refine (proj1 (resize_handle_tracks_pointer se
                   (imageLayer "layer-1" "data:image/png") (1 # 10) (-1 # 5) _ _));
    vm_compute; discriminate.
Defined.

(** ** Papers *)

(** Whatever paper id a configuration holds, the paper used is an entry of
    the catalog with positive width and height, taller than wide: the entry
    of that id when there is one and Letter otherwise.  Hence, in exact
    arithmetic, an export with a zero margin never throws the margin
    error. *)
Theorem selectedPaper_in_catalog (env : Browser) (cfg : PosterConfig.t Q)
    (ls : list (Layer.t Q)) :
  let paper := selectedPaper cfg in
  In paper PAPER_SIZES
  /\ (0 < PaperSize.width paper)%Q
  /\ (PaperSize.width paper < PaperSize.height paper)%Q
  /\ ((exists p, In p (PAPER_SIZES (N := Q))
                 /\ PaperSize.id p = PosterConfig.paperId cfg) ->
      PaperSize.id paper = PosterConfig.paperId cfg)
  /\ ((forall p, In p (PAPER_SIZES (N := Q)) ->
                 PaperSize.id p <> PosterConfig.paperId cfg) ->
      PaperSize.id paper = "letter"%string)
  /\ ((PosterConfig.margin cfg == 0)%Q ->
      run_alert (handleExport env cfg ls) = None
      \/ snd (generateTiledPDF env cfg ls paper) = Thrown contextError).
Proof.
  intros paper.
  assert (Hin : In paper PAPER_SIZES).
  { subst paper. unfold selectedPaper.
    destruct (findPaper (PosterConfig.paperId cfg)) as [p|] eqn:Hf.
    - unfold findPaper in Hf. apply find_some in Hf. apply Hf.
    - vm_compute. do 5 right. left. reflexivity. }
  assert (Hdims : (0 < PaperSize.width paper)%Q
                  /\ (PaperSize.width paper < PaperSize.height paper)%Q).
  { revert Hin. generalize paper. intros p Hp. cbn in Hp.
    repeat (destruct Hp as [Hp|Hp]; [subst p; split; reflexivity|]).
    contradiction. }
  destruct Hdims as [Hw Hh].
  split; [exact Hin|]. split; [exact Hw|]. split; [exact Hh|].
  split.
  { intros (p & Hp & Hid). subst paper. unfold selectedPaper.
    destruct (findPaper (PosterConfig.paperId cfg)) as [q|] eqn:Hf.
    - unfold findPaper in Hf. apply find_some in Hf. destruct Hf as [_ Hq].
      apply String.eqb_eq in Hq. exact Hq.
    - unfold findPaper in Hf. apply (find_none _ _ Hf) in Hp.
      rewrite Hid, String.eqb_refl in Hp. discriminate. }
  split.
  { intros Hnone. subst paper. unfold selectedPaper.
    destruct (findPaper (PosterConfig.paperId cfg)) as [q|] eqn:Hf.
    - unfold findPaper in Hf. apply find_some in Hf. destruct Hf as [Hq Hid].
      apply String.eqb_eq in Hid. exfalso. apply (Hnone q Hq Hid).
    - reflexivity. }
  intros Hm.
  pose proof (export_margin_check env cfg ls paper) as Hcheck.
  cbv zeta in Hcheck. js_unfold.
  set (g := geometry cfg paper) in *.
  assert (Hpw : (0 < g_printW g)%Q /\ (0 < g_printH g)%Q).
  { assert (Hgw : g_printW g = (pWidth g - PosterConfig.margin cfg * 2)%Q) by reflexivity.
    assert (Hgh : g_printH g = (pHeight g - PosterConfig.margin cfg * 2)%Q) by reflexivity.
    rewrite Hgw, Hgh, Hm.
    assert (Hpos : (0 < pWidth g)%Q /\ (0 < pHeight g)%Q).
    { unfold g, geometry. cbn [pWidth pHeight]. js_unfold.
      assert (Hw' : (0 < PaperSize.width paper / (254 # 10))%Q)
        by (apply Qlt_shift_div_l; [reflexivity|lra]).
      assert (Hh' : (0 < PaperSize.height paper / (254 # 10))%Q)
        by (apply Qlt_shift_div_l; [reflexivity|lra]).
      destruct (Unit_eqb (PosterConfig.unit cfg) INCH);
        destruct (PosterConfig.orientation cfg); split; lra. }
    destruct Hpos. split; lra. }
  destruct Hpw as [Hpw Hph].
  assert (Hb : (Qle_bool (g_printW g) 0 || Qle_bool (g_printH g) 0) = false).
  { apply orb_false_iff. split.
    - destruct (Qle_bool (g_printW g) 0) eqn:Hb; [|reflexivity].
      apply Qle_bool_iff in Hb. lra.
    - destruct (Qle_bool (g_printH g) 0) eqn:Hb; [|reflexivity].
      apply Qle_bool_iff in Hb. lra. }
  unfold handleExport. fold paper. unfold generateTiledPDF. fold g. js_unfold.
  rewrite Hb. destruct (canvasContext env); cbn; [left|right]; reflexivity.
Qed.

(** ** Page labels *)

Lemma string_of_uint_digits (d : Decimal.uint) :
  allDigits (NilEmpty.string_of_uint d) = true.
Proof. induction d; cbn; auto. Qed.

Lemma showNat_digits (n : nat) : allDigits (showNat n) = true.
Proof. apply string_of_uint_digits. Qed.

Lemma showNat_injective (n m : nat) : showNat n = showNat m -> n = m.
Proof.
  unfold showNat. intros Heq.
  assert (Hu : Some (Nat.to_uint n) = Some (Nat.to_uint m)).
  { rewrite <- (NilEmpty.usu (Nat.to_uint n)), <- (NilEmpty.usu (Nat.to_uint m)), Heq.
    reflexivity. }
  injection Hu as Hu.
  rewrite <- (DecimalNat.Unsigned.of_to n), <- (DecimalNat.Unsigned.of_to m), Hu.
  reflexivity.
Qed.

(** A run of digits followed by a character that is no digit determines
    both the run and what follows. *)
Lemma digits_then_separator (sep : ascii) (a : string) :
  forall a' x x',
  isDigit sep = false -> allDigits a = true -> allDigits a' = true ->
  (a ++ String sep x)%string = (a' ++ String sep x')%string ->
  a = a' /\ x = x'.
Proof.
  induction a as [|c a IH]; intros [|c' a'] x x' Hsep Ha Ha' Heq; cbn in *.
  - injection Heq as Hx. split; [reflexivity|exact Hx].
  - injection Heq as Hc _. subst c'.
    apply andb_true_iff in Ha'. destruct Ha' as [Hd _]. congruence.
  - injection Heq as Hc _. subst c.
    apply andb_true_iff in Ha. destruct Ha as [Hd _]. congruence.
  - injection Heq as Hc Hrest. subst c'.
    apply andb_true_iff in Ha, Ha'. destruct Ha as [_ Ha]. destruct Ha' as [_ Ha'].
    destruct (IH a' x x' Hsep Ha Ha' Hrest) as [Haa Hxx].
    subst. split; reflexivity.
Qed.

(** Two pages with the same label are the same page: the label tells the
    row and the column apart, so no two pages of an export carry the same
    label. *)
Theorem page_labels_unique (r c r' c' : nat) :
  pageLabel r c = pageLabel r' c' -> r = r' /\ c = c'.
Proof.
  unfold pageLabel. intros Heq.
  cbn [append] in Heq. injection Heq as Heq.
  apply (digits_then_separator "-"%char) in Heq;
    [|reflexivity|apply showNat_digits|apply showNat_digits].
  destruct Heq as [Hr Hrest].
  apply (digits_then_separator " "%char) in Hrest;
    [|reflexivity|apply showNat_digits|apply showNat_digits].
  destruct Hrest as [Hc _].
  apply showNat_injective in Hr, Hc. split; lia.
Qed.

Lemma page_labels_unique_witness :
  (2 = 2 /\ 11 = 11)%nat.
Proof.
  exact (page_labels_unique 2 11 2 11 eq_refl).
Defined.

(** ** Lines of a text layer *)

Lemma splitLines_count (s : string) :
  List.length (splitLines s) = S (lineBreaks s).
Proof.
  induction s as [|c s IH]; [reflexivity|].
  cbn [splitLines lineBreaks]. destruct (Ascii.eqb c "010"%char).
  - cbn [List.length]. rewrite IH. reflexivity.
  - destruct (splitLines s) as [|l ls]; [discriminate IH|]. exact IH.
Qed.

Lemma splitLines_no_break (s : string) :
  forallb (fun l => negb (hasLineBreak l)) (splitLines s) = true.
Proof.
  induction s as [|c s IH]; [reflexivity|].
  cbn [splitLines]. destruct (Ascii.eqb c "010"%char) eqn:Hc.
  - cbn [forallb hasLineBreak negb andb]. exact IH.
  - destruct (splitLines s) as [|l ls]; [cbn; rewrite Hc; reflexivity|].
    cbn [forallb hasLineBreak] in *. rewrite Hc. cbn [orb]. exact IH.
Qed.

(** A text layer is drawn as one more line than its content has line
    breaks (so an empty text still draws one empty line), no drawn line
    contains a line break, and an image layer draws no text at all. *)
Theorem text_layer_line_count {N : Type} `{JsNumber N} (cw ch : Z)
    (l : Layer.t N) :
  (Layer.type l = text ->
   List.length (paintedText (drawLayer cw ch l)) = S (lineBreaks (Layer.content l))
   /\ forallb (fun line => negb (hasLineBreak line)) (paintedText (drawLayer cw ch l))
      = true
   /\ paintedImages (drawLayer cw ch l) = [])
  /\ (Layer.type l = image ->
      paintedText (drawLayer cw ch l) = []
      /\ paintedImages (drawLayer cw ch l) = [Layer.content l]).
Proof.
  destruct (drawLayer_painted cw ch l) as (_ & Hi & Ht & _).
  unfold isImage, isText in *.
  split; intros Htype; rewrite Htype in *; rewrite Hi, Ht.
  - split; [apply splitLines_count|]. split; [apply splitLines_no_break|reflexivity].
  - split; reflexivity.
Qed.

(** ** The workspace and the exporter agree *)

(** For every configuration and paper, the workspace and the exporter
    derive the same printable area and the same poster size, and in SIZE
    mode the same page counts; the workspace's logical size is the poster
    size times 25.4 in inch mode and times 1 in millimeter mode. *)
Theorem workspace_matches_export {N : Type} `{JsNumber N}
    (cfg : PosterConfig.t N) (paper : PaperSize.t N) :
  let l := workspaceLayout cfg paper in
  let g := geometry cfg paper in
  printW l = g_printW g /\ printH l = g_printH g
  /\ posterDisplayWidth l = posterWidth g
  /\ posterDisplayHeight l = posterHeight g
  /\ visualW l = (posterWidth g * (if isInch g then lit (254 # 10) else lit 1))%js
  /\ visualH l = (posterHeight g * (if isInch g then lit (254 # 10) else lit 1))%js
  /\ (PosterConfig.mode cfg = SIZE ->
      cols l = of_Z (g_cols g) /\ rows l = of_Z (g_rows g)).
Proof.
  unfold workspaceLayout, geometry.
  destruct (PosterConfig.mode cfg); cbn; repeat split; try reflexivity;
    intros; discriminate.
Qed.

(** In exact arithmetic a text layer has the same size relative to the
    height of the surface in the workspace and in the export: the font
    sizes are in the ratio of the two heights. *)
Theorem text_size_scales_with_surface (visualH : Q) (cw ch : Z) (l : Layer.t Q) :
  Layer.type l = text ->
  exists px : Q,
    drawnFontSize (drawLayer cw ch l) = Some px
    /\ (px * visualH == workspaceFontSize visualH l * inject_Z ch)%Q.
Proof.
  intros Ht. eexists. split.
  - unfold drawLayer. rewrite Ht. reflexivity.
  - unfold workspaceFontSize. js_unfold. ring.
Qed.

Lemma text_size_scales_with_surface_witness :
  exists px : Q,
    drawnFontSize (drawLayer 800 1000 unitSizeText) = Some px
    /\ (px * 500 == workspaceFontSize 500 unitSizeText * inject_Z 1000)%Q.
Proof.
  exact (text_size_scales_with_surface 500 800 1000 unitSizeText eq_refl).
Defined.
